(** * URL scanner: feature extraction, structural analysis, risk scoring

    A shallow embedding of [Research_Notebooks/url_scanner.py] and the
    properties its specification states about it.

    Conventions of the embedding.
    - A Python [str] is a [string]; its characters are the code points
      below 256.  On this range [\d] of [re] is [0-9] and [str.lower]
      is the Latin-1 case mapping.
    - A Python [float] is an exact rational ([Q]): the arithmetic of
      [calculate_risk_score] is modelled without binary64 rounding.
    - The libraries the module imports ([urllib.parse.urlparse],
      [tldextract.extract], [validators.url], [hashlib.md5], the Keras
      model, [datetime.now]) are not part of the repository: they are
      section variables, and a raised exception is [None].
    - [re] patterns are regular expressions with a declarative language
      [Lang] and an executable matcher by derivatives, proved equivalent. *)

From Stdlib Require Import String Ascii List ZArith QArith Qminmax Lia Lqa Bool.
From stdpp Require Import gmap strings sorting.
Import ListNotations.

Open Scope string_scope.

(** ** Python strings *)

Module PyStr.

Definition chars (s : string) : list ascii := list_ascii_of_string s.

Definition code (c : ascii) : nat := nat_of_ascii c.

Definition in_range (lo hi : nat) (c : ascii) : bool :=
  (lo <=? code c)%nat && (code c <=? hi)%nat.

(** [0-9] *)
Definition is_ascii_digit (c : ascii) : bool := in_range 48 57 c.
(** [a-z] and [A-Z] *)
Definition is_ascii_lower (c : ascii) : bool := in_range 97 122 c.
Definition is_ascii_upper (c : ascii) : bool := in_range 65 90 c.

(** [c.isdigit()] below 256: the ASCII digits and the superscripts
    U+00B2, U+00B3, U+00B9. *)
Definition isdigit (c : ascii) : bool :=
  is_ascii_digit c || (code c =? 178)%nat || (code c =? 179)%nat
  || (code c =? 185)%nat.

(** [c.isalpha()] below 256. *)
Definition isalpha (c : ascii) : bool :=
  is_ascii_lower c || is_ascii_upper c
  || (code c =? 170)%nat || (code c =? 181)%nat || (code c =? 186)%nat
  || in_range 192 214 c || in_range 216 246 c || in_range 248 255 c.

(** [c.lower()] below 256: [A-Z] and the Latin-1 capitals move up by 32. *)
Definition lower_char (c : ascii) : ascii :=
  if is_ascii_upper c || in_range 192 214 c || in_range 216 222 c
  then ascii_of_nat (code c + 32) else c.

Fixpoint lower (s : string) : string :=
  match s with
  | EmptyString => EmptyString
  | String c s' => String (lower_char c) (lower s')
  end.

(** [s.count(c)] for a one-character [c]. *)
Fixpoint count (c : ascii) (s : string) : nat :=
  match s with
  | EmptyString => 0
  | String d s' => (if Ascii.eqb d c then 1 else 0) + count c s'
  end.

(** [sum(p(c) for c in s)] *)
Fixpoint count_if (p : ascii -> bool) (s : string) : nat :=
  match s with
  | EmptyString => 0
  | String d s' => (if p d then 1 else 0) + count_if p s'
  end.

(** [s.split(sep)] for a one-character separator: the labels between
    the separators, empty ones included. *)
Fixpoint split (sep : ascii) (s : string) : list string :=
  match s with
  | EmptyString => [EmptyString]
  | String c s' =>
      if Ascii.eqb c sep then EmptyString :: split sep s'
      else match split sep s' with
           | [] => [String c EmptyString]
           | label :: rest => String c label :: rest
           end
  end.

(** [sub in s] *)
Fixpoint contains (sub s : string) : bool :=
  String.prefix sub s
  || match s with
     | EmptyString => false
     | String _ s' => contains sub s'
     end.

(** [sep.join(l)] *)
Definition join (sep : string) (l : list string) : string :=
  String.concat sep l.

End PyStr.

(** ** Regular expressions of [re] *)

Module Re.

Inductive regex : Type :=
| Void
| Eps
| Cls (p : ascii -> bool)
| Cat (r1 r2 : regex)
| Alt (r1 r2 : regex)
| Star (r : regex).

Definition Chr (c : ascii) : regex := Cls (Ascii.eqb c).
(** [r?] *)
Definition Opt (r : regex) : regex := Alt r Eps.
(** [r+] *)
Definition Plus (r : regex) : regex := Cat r (Star r).
(** [r{n}] *)
Fixpoint Rep (n : nat) (r : regex) : regex :=
  match n with
  | O => Eps
  | S n' => Cat r (Rep n' r)
  end.
(** [r{0,n}] *)
Fixpoint UpTo (n : nat) (r : regex) : regex :=
  match n with
  | O => Eps
  | S n' => Opt (Cat r (UpTo n' r))
  end.
(** [r{lo,hi}] *)
Definition Between (lo hi : nat) (r : regex) : regex :=
  Cat (Rep lo r) (UpTo (hi - lo) r).

(** The words a pattern matches in full. *)
Inductive Lang : regex -> list ascii -> Prop :=
| L_Eps : Lang Eps []
| L_Cls p c : p c = true -> Lang (Cls p) [c]
| L_Cat r1 r2 u v : Lang r1 u -> Lang r2 v -> Lang (Cat r1 r2) (u ++ v)
| L_AltL r1 r2 u : Lang r1 u -> Lang (Alt r1 r2) u
| L_AltR r1 r2 u : Lang r2 u -> Lang (Alt r1 r2) u
| L_StarNil r : Lang (Star r) []
| L_StarApp r u v : Lang r u -> Lang (Star r) v -> Lang (Star r) (u ++ v).

Fixpoint nullable (r : regex) : bool :=
  match r with
  | Void => false
  | Eps => true
  | Cls _ => false
  | Cat r1 r2 => nullable r1 && nullable r2
  | Alt r1 r2 => nullable r1 || nullable r2
  | Star _ => true
  end.

Fixpoint deriv (c : ascii) (r : regex) : regex :=
  match r with
  | Void => Void
  | Eps => Void
  | Cls p => if p c then Eps else Void
  | Cat r1 r2 =>
      if nullable r1 then Alt (Cat (deriv c r1) r2) (deriv c r2)
      else Cat (deriv c r1) r2
  | Alt r1 r2 => Alt (deriv c r1) (deriv c r2)
  | Star r1 => Cat (deriv c r1) (Star r1)
  end.

(** [dead r]: a syntactic check that [r] matches nothing, used to stop
    a scan early. *)
Fixpoint dead (r : regex) : bool :=
  match r with
  | Void => true
  | Eps => false
  | Cls _ => false
  | Cat r1 r2 => dead r1 || dead r2
  | Alt r1 r2 => dead r1 && dead r2
  | Star _ => false
  end.

(** [re.match]: some prefix of the word is in the language. *)
Fixpoint match_prefix (r : regex) (w : list ascii) : bool :=
  nullable r
  || match w with
     | [] => false
     | c :: w' => let d := deriv c r in
                  if dead d then false else match_prefix d w'
     end.

(** [re.search(...) is not None]: a match starts at some position. *)
Fixpoint search_chars (r : regex) (w : list ascii) : bool :=
  match_prefix r w
  || match w with
     | [] => false
     | _ :: w' => search_chars r w'
     end.

Definition search (r : regex) (s : string) : bool :=
  search_chars r (PyStr.chars s).

(** [re.findall] of a one-character class: the matches are the
    characters of the class, in order. *)
Fixpoint findall_cls (p : ascii -> bool) (s : string) : list string :=
  match s with
  | EmptyString => []
  | String c s' =>
      if p c then String c EmptyString :: findall_cls p s'
      else findall_cls p s'
  end.

(** Character classes of the module's patterns. *)
Definition digit : regex := Cls PyStr.is_ascii_digit.
Definition hexdigit (c : ascii) : bool :=
  PyStr.is_ascii_digit c || PyStr.in_range 97 102 c || PyStr.in_range 65 70 c.

End Re.

(** ** URLFeatureExtractor *)

(** The six components of [urllib.parse.ParseResult]. *)
Record ParseResult : Type := mkParseResult {
  scheme : string;
  netloc : string;
  path : string;
  params : string;
  query : string;
  fragment : string
}.

Module URLFeatureExtractor.

Import Re.

(** [[01]?\d\d?|2[0-4]\d|25[0-5]] *)
Definition octet : regex :=
  Alt (Cat (Opt (Cls (PyStr.in_range 48 49))) (Cat digit (Opt digit)))
      (Alt (Cat (Chr "2") (Cat (Cls (PyStr.in_range 48 52)) digit))
           (Cat (Chr "2") (Cat (Chr "5") (Cls (PyStr.in_range 48 53))))).

(** [(octet\.){3}octet] *)
Definition ipv4_dotted : regex := Cat (Rep 3 (Cat octet (Chr "."))) octet.

(** [0x[0-9a-fA-F]{1,2}] *)
Definition hex_octet : regex :=
  Cat (Chr "0") (Cat (Chr "x") (Between 1 2 (Cls hexdigit))).

(** [(hex_octet\.){3}hex_octet] *)
Definition ipv4_hex : regex := Cat (Rep 3 (Cat hex_octet (Chr "."))) hex_octet.

(** [(?:[a-fA-F0-9]{1,4}:){7}[a-fA-F0-9]{1,4}] *)
Definition ipv6_full : regex :=
  Cat (Rep 7 (Cat (Between 1 4 (Cls hexdigit)) (Chr ":")))
      (Between 1 4 (Cls hexdigit)).

Definition ip_pattern : regex := Alt ipv4_dotted (Alt ipv4_hex ipv6_full).

Definition has_ip_address (url : string) : Z :=
  if search ip_pattern url then (-1)%Z else 1%Z.

Definition count_characteristics (url : string) : nat * nat * nat :=
  (PyStr.count_if PyStr.isdigit url,
   PyStr.count_if PyStr.isalpha url,
   PyStr.count "/" url).

Section WithUrlparse.

(** [urllib.parse.urlparse]; [None] is a raised [ValueError]. *)
Variable urlparse : string -> option ParseResult.

(** The body runs under [try]; any exception, the [IndexError] of
    [[1]] included, gives 0. *)
Definition fd_length (url : string) : Z :=
  match urlparse url with
  | None => 0%Z
  | Some parsed =>
      match nth_error (PyStr.split "/" (path parsed)) 1 with
      | Some segment => Z.of_nat (String.length segment)
      | None => 0%Z
      end
  end.

(** The 1 x 5 array handed to the model; [None] when [urlparse]
    raises, which nothing here catches. *)
Definition extract_features (url : string) : option (list (list Z)) :=
  match urlparse url with
  | None => None
  | Some parsed_url =>
      let '(digits, letters, dirs) := count_characteristics url in
      let features :=
        [ Z.of_nat (String.length (netloc parsed_url));
          Z.of_nat (String.length (path parsed_url));
          fd_length url;
          Z.of_nat (PyStr.count "." url);
          has_ip_address url ] in
      Some [features]
  end.

End WithUrlparse.

End URLFeatureExtractor.

(** ** Methods of an object: state and exceptions

    A method reads and may assign the attributes of [self] and may
    raise.  It is a function from the object's state to the state after
    and either a result or nothing, when an exception leaves the method;
    assignments made before the exception stay. *)

Module Method.

Definition method (S A : Type) : Type := S -> option A * S.

Definition ret {S A : Type} (a : A) : method S A := fun s => (Some a, s).

Definition bind {S A B : Type} (m : method S A) (k : A -> method S B)
  : method S B :=
  fun s => match m s with
           | (Some a, s') => k a s'
           | (None, s') => (None, s')
           end.

(** [self] *)
Definition self {S : Type} : method S S := fun s => (Some s, s).

(** [self.attr = v], as a change of the whole state. *)
Definition assign {S : Type} (f : S -> S) : method S unit :=
  fun s => (Some tt, f s).

(** A value that may be an exception ([KeyError], [ZeroDivisionError],
    [ValueError]). *)
Definition try_ {S A : Type} (o : option A) : method S A :=
  fun s => (o, s).

(** [try: m / except Exception: handler] *)
Definition try_except {S A : Type} (m handler : method S A) : method S A :=
  fun s => match m s with
           | (Some a, s') => (Some a, s')
           | (None, s') => handler s'
           end.

(** A method of the object held in an attribute: [proj] reads the
    attribute and [upd] stores the object back. *)
Definition on {S T A : Type} (proj : S -> T) (upd : T -> S -> S)
  (m : method T A) : method S A :=
  fun s => let '(r, t') := m (proj s) in (r, upd t' s).

#[export] Instance method_ret {S : Type} : MRet (method S) :=
  fun A a => ret a.
#[export] Instance method_bind {S : Type} : MBind (method S) :=
  fun A B k m => bind m k.

End Method.
Export Method.

(** ** Python numbers and dictionaries *)

Module Py.

(** [int / int] and [float / float]; a zero divisor raises. *)
Definition div (x y : Q) : option Q :=
  if Qeq_bool y 0 then None else Some (x / y)%Q.

(** [min(a, b)]: the first of the smallest. *)
Definition min (a b : Q) : Q :=
  match (b ?= a)%Q with
  | Lt => b
  | _ => a
  end.

Definition of_nat (n : nat) : Q := inject_Z (Z.of_nat n).

(** A [dict] with string keys in insertion order. *)
Definition dict (V : Type) : Type := list (string * V).

(** [d[k]]; [None] is a [KeyError]. *)
Fixpoint getitem {V : Type} (d : dict V) (k : string) : option V :=
  match d with
  | [] => None
  | (k', v) :: d' => if String.eqb k' k then Some v else getitem d' k
  end.

(** [d[k] = v]: an existing key keeps its place, a new one goes last. *)
Fixpoint setitem {V : Type} (d : dict V) (k : string) (v : V) : dict V :=
  match d with
  | [] => [(k, v)]
  | (k', v') :: d' =>
      if String.eqb k' k then (k', v) :: d' else (k', v') :: setitem d' k v
  end.

(** [x > y] *)
Definition gt (x y : Q) : bool := negb (Qle_bool x y).

(** [o is not None] *)
Definition is_not_none {A : Type} (o : option A) : bool :=
  match o with
  | Some _ => true
  | None => false
  end.

(** [l.append(x)] *)
Definition append {A : Type} (l : list A) (x : A) : list A := (l ++ [x])%list.

End Py.

(** ** URLSecurityAnalyzer *)

(** What [tldextract.extract] returns. *)
Record ExtractResult : Type := mkExtractResult {
  subdomain : string;
  domain : string;
  suffix : string
}.

(** The dictionary [analyze_url_structure] builds: its keys are fixed. *)
Record Analysis : Type := mkAnalysis {
  url_length : nat;
  special_chars_count : nat;
  subdomain_depth : nat;
  path_depth : nat;
  found_keywords : list string;
  tld : string;
  uses_https : bool;
  has_ip_address : bool;
  excessive_dots : bool;
  numeric_domain : bool;
  domain_length : nat;
  path_length : nat;
  query_length : nat
}.

(** The dictionary [get_security_insights] builds. *)
Record Insights : Type := mkInsights {
  high_risk_factors : list string;
  moderate_risk_factors : list string;
  low_risk_factors : list string;
  security_positives : list string
}.

(** The attributes of a [URLSecurityAnalyzer]. *)
Record Analyzer : Type := mkAnalyzer {
  risk_factors : Py.dict (Py.dict Q);
  high_risk_tlds : gset string;
  suspicious_keywords : list string
}.

Module URLSecurityAnalyzer.

Import Re.

(** [__init__] *)
Definition init : Analyzer := {|
  risk_factors :=
    [ ("length", [("weight", 0.15%Q); ("threshold", 75%Q)]);
      ("special_chars", [("weight", 0.2%Q); ("threshold", 10%Q)]);
      ("subdomain_depth", [("weight", 0.15%Q); ("threshold", 3%Q)]);
      ("path_depth", [("weight", 0.1%Q); ("threshold", 4%Q)]);
      ("suspicious_keywords", [("weight", 0.25%Q)]);
      ("tld_risk", [("weight", 0.15%Q)]) ];
  high_risk_tlds :=
    {[ "tk"; "ml"; "ga"; "cf"; "gq"; "xyz"; "work"; "click"; "bid" ]};
  suspicious_keywords :=
    [ "login"; "signin"; "verify"; "security"; "update"; "account";
      "payment"; "confirm"; "password"; "banking"; "secure"; "authenticate" ]
|}.

(** [[^a-zA-Z0-9./\-]] *)
Definition special_char (c : ascii) : bool :=
  negb (PyStr.is_ascii_lower c || PyStr.is_ascii_upper c
        || PyStr.is_ascii_digit c
        || Ascii.eqb c "." || Ascii.eqb c "/" || Ascii.eqb c "-").

(** [\d+\.\d+\.\d+\.\d+] *)
Definition dotted_numbers : regex :=
  Cat (Plus digit) (Cat (Chr ".")
  (Cat (Plus digit) (Cat (Chr ".")
  (Cat (Plus digit) (Cat (Chr ".") (Plus digit)))))).

(** [self.risk_factors[factor][key]] *)
Definition factor (factor key : string) : method Analyzer Q :=
  s ← self;
  entry ← try_ (Py.getitem (risk_factors s) factor);
  try_ (Py.getitem entry key).

Section WithLibraries.

(** [urlparse] may raise ([None]); [tldextract.extract] is taken to
    return for every string. *)
Variable urlparse : string -> option ParseResult.
Variable tldextract_extract : string -> ExtractResult.

Definition analyze_url_structure (url : string) : method Analyzer Analysis :=
  parsed ← try_ (urlparse url);
  let extracted := tldextract_extract url in
  s ← self;
  mret {|
    url_length := String.length url;
    special_chars_count := length (findall_cls special_char url);
    subdomain_depth := length (PyStr.split "." (subdomain extracted));
    path_depth :=
      length (filter (fun x => negb (String.eqb x ""))
                     (PyStr.split "/" (path parsed)));
    found_keywords :=
      filter (fun kw => PyStr.contains kw (PyStr.lower url))
             (suspicious_keywords s);
    tld := suffix extracted;
    uses_https := String.eqb (scheme parsed) "https";
    has_ip_address := search dotted_numbers url;
    excessive_dots := (3 <? PyStr.count "." url)%nat;
    numeric_domain := search (Plus digit) (domain extracted);
    domain_length := String.length (domain extracted);
    path_length := String.length (path parsed);
    query_length := String.length (query parsed)
  |}.

End WithLibraries.

(** [min(value / self.risk_factors[name]['threshold'], 1.0)] *)
Definition threshold_risk (name : string) (value : nat) : method Analyzer Q :=
  threshold ← factor name "threshold";
  ratio ← try_ (Py.div (Py.of_nat value) threshold);
  mret (Py.min ratio 1).

(** [sum(score * self.risk_factors[factor]['weight'] for factor, score in
    items)], from the running total [acc]. *)
Fixpoint weighted_sum (items : Py.dict Q) (acc : Q) : method Analyzer Q :=
  match items with
  | [] => mret acc
  | (name, score) :: rest =>
      weight ← factor name "weight";
      weighted_sum rest (acc + score * weight)%Q
  end.

Definition calculate_risk_score (analysis : Analysis)
  : method Analyzer (Q * Py.dict Q) :=
  let risk_scores : Py.dict Q := [] in
  (* Length risk *)
  r ← threshold_risk "length" (url_length analysis);
  let risk_scores := Py.setitem risk_scores "length" r in
  (* Special characters risk *)
  r ← threshold_risk "special_chars" (special_chars_count analysis);
  let risk_scores := Py.setitem risk_scores "special_chars" r in
  (* Subdomain depth risk *)
  r ← threshold_risk "subdomain_depth" (subdomain_depth analysis);
  let risk_scores := Py.setitem risk_scores "subdomain_depth" r in
  (* Path depth risk *)
  r ← threshold_risk "path_depth" (path_depth analysis);
  let risk_scores := Py.setitem risk_scores "path_depth" r in
  (* Suspicious keywords risk *)
  ratio ← try_ (Py.div (Py.of_nat (length (found_keywords analysis))) 3);
  let risk_scores :=
    Py.setitem risk_scores "suspicious_keywords" (Py.min ratio 1) in
  (* TLD risk *)
  s ← self;
  let risk_scores :=
    Py.setitem risk_scores "tld_risk"
      (if bool_decide (tld analysis ∈ high_risk_tlds s) then 1%Q else 0%Q) in
  (* Calculate weighted average *)
  total_risk ← weighted_sum risk_scores 0;
  mret (total_risk, risk_scores).

Definition get_security_insights (analysis : Analysis) (risk_scores : Py.dict Q)
  : method Analyzer Insights :=
  let high : list string := [] in
  let moderate : list string := [] in
  let high :=
    if (75 <? url_length analysis)%nat
    then Py.append high
           ("Unusually long URL length which is often associated with phishing attempts")
    else high in
  let high :=
    if (10 <? special_chars_count analysis)%nat
    then Py.append high
           ("High number of special characters which may be used to obfuscate malicious URLs")
    else high in
  let moderate :=
    if (3 <? subdomain_depth analysis)%nat
    then Py.append moderate
           ("Multiple subdomain levels which could indicate URL manipulation")
    else moderate in
  let moderate :=
    match found_keywords analysis with
    | [] => moderate
    | _ :: _ =>
        Py.append moderate
          ("Contains suspicious keywords: "
           +:+ PyStr.join ", " (found_keywords analysis))
    end in
  s ← self;
  let high :=
    if bool_decide (tld analysis ∈ high_risk_tlds s)
    then Py.append high
           ("Uses a high-risk TLD (" +:+ tld analysis
                  +:+ ") commonly associated with malicious websites")
    else high in
  let high :=
    if has_ip_address analysis
    then Py.append high
           ("Uses an IP address instead of a domain name, which is suspicious for legitimate websites")
    else high in
  let positives : list string := [] in
  let positives :=
    if uses_https analysis
    then Py.append positives
           ("Uses HTTPS protocol for secure communication")
    else positives in
  let positives :=
    if negb (excessive_dots analysis)
    then Py.append positives
           ("Normal number of dots in the domain name")
    else positives in
  mret {| high_risk_factors := high;
          moderate_risk_factors := moderate;
          low_risk_factors := [];
          security_positives := positives |}.

End URLSecurityAnalyzer.

(** ** URLDatabase *)

(** A row of [url_scans] without its primary key [id]. *)
Record Row : Type := mkRow {
  row_url : string;
  row_timestamp : Z;
  row_prediction : Q;
  row_is_malicious : bool
}.

(** The table [url_scans]: [id TEXT PRIMARY KEY] makes it a finite map
    from [id] to the other columns. *)
Abbreviation url_scans := (gmap string Row).

Module URLDatabase.

Section WithHash.

(** [hashlib.md5(url.encode()).hexdigest()] *)
Variable md5_hexdigest : string -> string.

(** [INSERT OR REPLACE]: the row of the same [id], if any, is replaced.
    [now] is the reading of [datetime.now()]; errors of the database
    driver are not modelled. *)
Definition add_scan (now : Z) (url : string) (prediction : Q)
  : method url_scans unit :=
  let url_id := md5_hexdigest url in
  assign (fun conn =>
    <[ url_id := {| row_url := url;
                    row_timestamp := now;
                    row_prediction := prediction;
                    row_is_malicious := Qle_bool 0.5 prediction |} ]> conn).

End WithHash.

(** [ORDER BY timestamp DESC]: no row comes before a later one. *)
Definition newer (r1 r2 : Row) : Prop :=
  (row_timestamp r2 <= row_timestamp r1)%Z.

#[export] Instance newer_dec (r1 r2 : Row) : Decision (newer r1 r2) :=
  Z_le_dec (row_timestamp r2) (row_timestamp r1).


End URLDatabase.

(** ** URLScannerApp *)

(** What [display_security_analysis] shows: both scores, the factor
    scores of the radar chart and the three lists of insights. *)
Record RiskAssessment : Type := mkRiskAssessment {
  composite_score : Q;
  factor_scores : Py.dict Q;
  insights : Insights
}.

(** What a run of the page puts on the screen. *)
Inductive rendered : Type :=
| st_error (msg : string)
(** [st.error(f"{msg}{str(e)}")]: the text of the exception is not modelled *)
| st_error_exception (msg : string)
| security_analysis (url : string) (prediction : Q) (a : RiskAssessment).

(** [self.model.predict(features)[0][0]]; [None] when the call raises. *)
Definition classifier : Type := list (list Z) -> option Q.

(** The attributes of a [URLScannerApp], and the screen. *)
Record App : Type := mkApp {
  db : url_scans;
  model : option classifier;
  security_analyzer : Analyzer;
  screen : list rendered
}.

Module URLScannerApp.

Definition set_db (t : url_scans) (s : App) : App :=
  {| db := t; model := model s;
     security_analyzer := security_analyzer s; screen := screen s |}.

Definition set_security_analyzer (a : Analyzer) (s : App) : App :=
  {| db := db s; model := model s;
     security_analyzer := a; screen := screen s |}.

Definition render (r : rendered) : method App unit :=
  assign (fun s =>
    {| db := db s; model := model s;
       security_analyzer := security_analyzer s;
       screen := Py.append (screen s) r |}).

(** The colour of the risk score in [display_security_analysis]:
    ["red" if risk_score > 0.7 else "orange" if risk_score > 0.4 else
    "green"]. *)
Definition risk_color (risk_score : Q) : string :=
  if Py.gt risk_score 0.7 then "red"
  else if Py.gt risk_score 0.4 then "orange"
  else "green".

(** The colour of the model's confidence:
    ["red" if prediction > 0.5 else "green"]. *)
Definition pred_color (prediction : Q) : string :=
  if Py.gt prediction 0.5 then "red" else "green".

Section WithLibraries.

Variable urlparse : string -> option ParseResult.
Variable tldextract_extract : string -> ExtractResult.
Variable validators_url : string -> bool.
Variable md5_hexdigest : string -> string.

(** The three calls with which [display_security_analysis] begins. *)
Definition assess (url : string) : method Analyzer RiskAssessment :=
  analysis ← URLSecurityAnalyzer.analyze_url_structure
               urlparse tldextract_extract url;
  '(risk_score, risk_scores) ←
     URLSecurityAnalyzer.calculate_risk_score analysis;
  insights ← URLSecurityAnalyzer.get_security_insights analysis risk_scores;
  mret {| composite_score := risk_score;
          factor_scores := risk_scores;
          insights := insights |}.

Definition predict_url (now : Z) (url : string)
  : method App (option (Q * list (list Z))) :=
  s ← self;
  match model s with
  | None =>
      _ ← render (st_error "Model not loaded. Please check the model file.");
      mret None
  | Some the_model =>
      try_except
        (features ← try_ (URLFeatureExtractor.extract_features urlparse url);
         prediction ← try_ (the_model features);
         _ ← on db set_db
               (URLDatabase.add_scan md5_hexdigest now url prediction);
         mret (Some (prediction, features)))
        (_ ← render (st_error_exception "Error predicting URL: ");
         mret None)
  end.

Definition display_security_analysis (url : string) (prediction : Q)
  : method App unit :=
  a ← on security_analyzer set_security_analyzer (assess url);
  render (security_analysis url prediction a).

(** The page after a press of "Perform Security Analysis" on [url]; the
    fixed headings and the expander are left out. *)
Definition show_url_scanner_page (now : Z) (url : string) : method App unit :=
  s ← self;
  if Py.is_not_none (model s) && validators_url url
  then
    r ← predict_url now url;
    match r with
    | Some (prediction, features) => display_security_analysis url prediction
    | None => mret tt
    end
  else render (st_error "Please enter a valid URL").

End WithLibraries.

End URLScannerApp.

(** * Properties *)

(** ** The matcher decides the language of a pattern *)

Module ReFacts.

Import Re.
#[local] Open Scope list_scope.

Lemma nullable_spec (r : regex) : nullable r = true <-> Lang r [].
Proof.
  induction r as [| | p | r1 IH1 r2 IH2 | r1 IH1 r2 IH2 | r IH]; simpl.
  - split; [discriminate | intros H; inversion H].
  - split; [constructor | reflexivity].
  - split; [discriminate | intros H; inversion H].
  - rewrite andb_true_iff, IH1, IH2. split.
    + intros [H1 H2]. exact (L_Cat _ _ [] [] H1 H2).
    + intros H. inversion H as [| | ? ? u v Hu Hv Hr Huv | | | |]; subst.
      apply app_eq_nil in Huv as [-> ->]. auto.
  - rewrite orb_true_iff, IH1, IH2. split.
    + intros [H | H]; [apply L_AltL | apply L_AltR]; exact H.
    + intros H. inversion H; subst; auto.
  - split; [constructor | reflexivity].
Qed.

(** A non-empty word of a star starts with a non-empty word of its body. *)
Lemma star_cons_inv (r : regex) (c : ascii) (w : list ascii) :
  Lang (Star r) (c :: w) ->
  exists u v, w = u ++ v /\ Lang r (c :: u) /\ Lang (Star r) v.
Proof.
  intros H. remember (Star r) as s eqn:Es. remember (c :: w) as cw eqn:Ew.
  revert w Ew.
  induction H as [| | | | | r0 | r0 u v Hu _ Hv IHv]; intros w Ew;
    try discriminate.
  injection Es as ->.
  destruct u as [| d u'].
  - simpl in Ew. apply IHv; auto.
  - simpl in Ew. injection Ew as -> <-. exists u', v. auto.
Qed.

Lemma deriv_spec (c : ascii) (r : regex) (w : list ascii) :
  Lang (deriv c r) w <-> Lang r (c :: w).
Proof.
  revert w.
  induction r as [| | p | r1 IH1 r2 IH2 | r1 IH1 r2 IH2 | r IH];
    intros w; simpl.
  - split; intros H; inversion H.
  - split; intros H; inversion H.
  - destruct (p c) eqn:Ep; split; intros H; inversion H; subst.
    + constructor. exact Ep.
    + constructor.
    + congruence.
  - assert (Hcat : Lang (Cat (deriv c r1) r2) w ->
                   Lang (Cat r1 r2) (c :: w)).
    { intros H. inversion H as [| | ? ? u v Hu Hv | | | |]; subst.
      apply IH1 in Hu. exact (L_Cat _ _ (c :: u) v Hu Hv). }
    assert (Hinv : Lang (Cat r1 r2) (c :: w) ->
                   Lang (Cat (deriv c r1) r2) w
                   \/ (Lang r1 [] /\ Lang r2 (c :: w))).
    { intros H. inversion H as [| | ? ? u v Hu Hv Hr Huv | | | |]; subst.
      destruct u as [| d u']; simpl in Huv.
      - subst v. right. auto.
      - injection Huv as -> <-. left. constructor; [apply IH1 |]; auto. }
    destruct (nullable r1) eqn:En.
    + split.
      * intros H. inversion H; subst; [auto |].
        apply nullable_spec in En.
        apply (L_Cat _ _ [] (c :: w) En). apply IH2. assumption.
      * intros H. destruct (Hinv H) as [H1 | [_ H2]].
        -- apply L_AltL. exact H1.
        -- apply L_AltR. apply IH2. exact H2.
    + split; [exact Hcat |].
      intros H. destruct (Hinv H) as [H1 | [H1 _]]; [exact H1 |].
      apply nullable_spec in H1. congruence.
  - split; intros H; inversion H; subst.
    + apply L_AltL. apply IH1. assumption.
    + apply L_AltR. apply IH2. assumption.
    + apply L_AltL. apply IH1. assumption.
    + apply L_AltR. apply IH2. assumption.
  - split.
    + intros H. inversion H as [| | ? ? u v Hu Hv | | | |]; subst.
      apply IH in Hu. exact (L_StarApp _ (c :: u) v Hu Hv).
    + intros H. apply star_cons_inv in H as (u & v & -> & Hu & Hv).
      constructor; [apply IH |]; assumption.
Qed.

Lemma dead_spec (r : regex) (w : list ascii) : dead r = true -> ~ Lang r w.
Proof.
  intros Hd H. induction H; simpl in Hd;
    rewrite ?orb_true_iff, ?andb_true_iff in Hd;
    try discriminate; intuition.
Qed.

Lemma match_prefix_spec (r : regex) (w : list ascii) :
  match_prefix r w = true <-> exists u v, w = u ++ v /\ Lang r u.
Proof.
  revert r. induction w as [| c w IH]; intros r; simpl.
  - rewrite orb_false_r, nullable_spec. split.
    + intros H. exists [], []. auto.
    + intros (u & v & Huv & H). symmetry in Huv.
      apply app_eq_nil in Huv as [-> _]. exact H.
  - rewrite orb_true_iff, nullable_spec. split.
    + intros [H | H].
      * exists [], (c :: w). auto.
      * destruct (dead (deriv c r)); [discriminate |].
        apply IH in H as (u & v & -> & H). apply deriv_spec in H.
        exists (c :: u), v. auto.
    + intros (u & v & Huv & H). destruct u as [| d u']; [left; exact H |].
      simpl in Huv. injection Huv as <- ->. right.
      apply deriv_spec in H.
      destruct (dead (deriv c r)) eqn:Ed.
      * exfalso. exact (dead_spec _ _ Ed H).
      * apply IH. exists u', v. auto.
Qed.

Lemma search_chars_spec (r : regex) (w : list ascii) :
  search_chars r w = true <-> exists a u b, w = a ++ u ++ b /\ Lang r u.
Proof.
  induction w as [| c w IH]; cbn [search_chars].
  - rewrite orb_false_r, match_prefix_spec. split.
    + intros (u & v & Huv & H). exists [], u, v. auto.
    + intros (a & u & b & Haub & H). exists u, b. split; [| exact H].
      symmetry in Haub. apply app_eq_nil in Haub as [-> Hub]. auto.
  - rewrite orb_true_iff, match_prefix_spec, IH. split.
    + intros [(u & v & Huv & H) | (a & u & b & -> & H)].
      * exists [], u, v. auto.
      * exists (c :: a), u, b. auto.
    + intros (a & u & b & Haub & H). destruct a as [| d a'].
      * left. exists u, b. auto.
      * simpl in Haub. injection Haub as <- ->. right. exists a', u, b. auto.
Qed.

End ReFacts.

(** ** Risk scoring *)

Module RiskScore.

Import URLSecurityAnalyzer.
#[local] Open Scope Q_scope.

Lemma min_spec (a b : Q) :
  (b < a /\ Py.min a b = b) \/ (a <= b /\ Py.min a b = a).
Proof.
  unfold Py.min. destruct (b ?= a) eqn:E.
  - right. split; [| reflexivity].
    apply Qeq_alt in E. rewrite E. apply Qle_refl.
  - left. split; [| reflexivity]. apply Qlt_alt. exact E.
  - right. split; [| reflexivity].
    apply Qlt_le_weak. apply Qgt_alt. exact E.
Qed.

Lemma min_Qmin (a b : Q) : Py.min a b == Qmin a b.
Proof.
  destruct (min_spec a b) as [[H ->] | [H ->]].
  - symmetry. apply Q.min_r. apply Qlt_le_weak. exact H.
  - symmetry. apply Q.min_l. exact H.
Qed.

Lemma of_nat_nonneg (n : nat) : 0 <= Py.of_nat n.
Proof. unfold Py.of_nat, Qle. simpl. lia. Qed.

Lemma of_nat_pos (n : nat) : (1 <= n)%nat -> 1 <= Py.of_nat n.
Proof. intros H. unfold Py.of_nat, Qle. simpl. lia. Qed.

(** A clamped ratio [min(n / t, 1.0)] with [t > 0]. *)
Lemma clamp_bounds (n : nat) (t : Q) :
  0 < t -> 0 <= Py.min (Py.of_nat n / t) 1 <= 1.
Proof.
  intros Ht.
  assert (H0 : 0 <= Py.of_nat n / t).
  { apply Qle_shift_div_l; [exact Ht |].
    rewrite Qmult_0_l. apply of_nat_nonneg. }
  destruct (min_spec (Py.of_nat n / t) 1) as [[H ->] | [H ->]].
  - split; [discriminate | apply Qle_refl].
  - split; assumption.
Qed.

Lemma clamp_lower (n : nat) (t : Q) :
  (1 <= n)%nat -> 1 <= t -> 1 / t <= Py.min (Py.of_nat n / t) 1.
Proof.
  intros Hn Ht.
  assert (Hpos : 0 < t) by (apply Qlt_le_trans with 1; [reflexivity | exact Ht]).
  assert (H1 : 1 / t <= Py.of_nat n / t).
  { unfold Qdiv. apply Qmult_le_compat_r; [apply of_nat_pos; exact Hn |].
    apply Qlt_le_weak. apply Qinv_lt_0_compat. exact Hpos. }
  destruct (min_spec (Py.of_nat n / t) 1) as [[H ->] | [H ->]].
  - apply Qle_shift_div_r; [exact Hpos |]. rewrite Qmult_1_l. exact Ht.
  - exact H1.
Qed.

(** The factor scores [calculate_risk_score] stores, in the order of
    its assignments. *)
Definition scores_of (a : Analysis) : Py.dict Q :=
  [ ("length", Py.min (Py.of_nat (url_length a) / 75) 1);
    ("special_chars", Py.min (Py.of_nat (special_chars_count a) / 10) 1);
    ("subdomain_depth", Py.min (Py.of_nat (subdomain_depth a) / 3) 1);
    ("path_depth", Py.min (Py.of_nat (path_depth a) / 4) 1);
    ("suspicious_keywords",
      Py.min (Py.of_nat (length (found_keywords a)) / 3) 1);
    ("tld_risk",
      if bool_decide (tld a ∈ high_risk_tlds init) then 1 else 0) ]%string.

(** The running total of [sum] over the six items. *)
Definition total_of (a : Analysis) : Q :=
  0 + Py.min (Py.of_nat (url_length a) / 75) 1 * 0.15
    + Py.min (Py.of_nat (special_chars_count a) / 10) 1 * 0.2
    + Py.min (Py.of_nat (subdomain_depth a) / 3) 1 * 0.15
    + Py.min (Py.of_nat (path_depth a) / 4) 1 * 0.1
    + Py.min (Py.of_nat (length (found_keywords a)) / 3) 1 * 0.25
    + (if bool_decide (tld a ∈ high_risk_tlds init) then 1 else 0) * 0.15.

(** With the configuration of [__init__] the method raises nothing,
    leaves the analyzer as it was and returns these values. *)
Lemma calculate_risk_score_init (a : Analysis) :
  calculate_risk_score a init = (Some (total_of a, scores_of a), init).
Proof. reflexivity. Qed.

Lemma tld_risk_bounds (a : Analysis) :
  0 <= (if bool_decide (tld a ∈ high_risk_tlds init) then 1 else 0) <= 1.
Proof. destruct (bool_decide _); split; discriminate. Qed.

Lemma total_of_bounds (a : Analysis) : 0 <= total_of a <= 1.
Proof.
  unfold total_of.
  destruct (clamp_bounds (url_length a) 75) as [? ?]; [reflexivity |].
  destruct (clamp_bounds (special_chars_count a) 10) as [? ?]; [reflexivity |].
  destruct (clamp_bounds (subdomain_depth a) 3) as [? ?]; [reflexivity |].
  destruct (clamp_bounds (path_depth a) 4) as [? ?]; [reflexivity |].
  destruct (clamp_bounds (length (found_keywords a)) 3) as [? ?];
    [reflexivity |].
  destruct (tld_risk_bounds a) as [? ?].
  split; lra.
Qed.

(** *** C1 *)

(** C1.  For every structural analysis, hence for the analysis of every
    URL, [calculate_risk_score] returns a composite score in [0,1] and a
    mapping whose keys are the six factor names and whose every value
    lies in [0,1]. *)
Theorem calculate_risk_score_unit_interval (a : Analysis) :
  exists (total : Q) (scores : Py.dict Q),
    calculate_risk_score a init = (Some (total, scores), init)
    /\ 0 <= total <= 1
    /\ map fst scores
       = [ "length"; "special_chars"; "subdomain_depth"; "path_depth";
           "suspicious_keywords"; "tld_risk" ]%string
    /\ Forall (fun kv => 0 <= snd kv <= 1) scores.
Proof.
  exists (total_of a), (scores_of a).
  split; [apply calculate_risk_score_init |].
  split; [apply total_of_bounds |].
  split; [reflexivity |].
  unfold scores_of.
  repeat (apply List.Forall_cons;
          [first [ apply clamp_bounds; reflexivity | apply tld_risk_bounds ] |]).
  apply List.Forall_nil.
Qed.

(** *** C2 *)

(** The high-risk TLD set as the specification lists it. *)
Definition high_risk_tld_table : list string :=
  [ "tk"; "ml"; "ga"; "cf"; "gq"; "xyz"; "work"; "click"; "bid" ]%string.

(** The normalisation column of the specification's table. *)
Definition normalised_table (a : Analysis) : list (string * Q) :=
  [ ("length", Qmin (inject_Z (Z.of_nat (url_length a)) / 75) 1);
    ("special_chars",
      Qmin (inject_Z (Z.of_nat (special_chars_count a)) / 10) 1);
    ("subdomain_depth",
      Qmin (inject_Z (Z.of_nat (subdomain_depth a)) / 3) 1);
    ("path_depth", Qmin (inject_Z (Z.of_nat (path_depth a)) / 4) 1);
    ("suspicious_keywords",
      Qmin (inject_Z (Z.of_nat (length (found_keywords a))) / 3) 1);
    ("tld_risk",
      if existsb (String.eqb (tld a)) high_risk_tld_table then 1 else 0)
  ]%string.

(** The composite score as the specification writes it. *)
Definition composite_table (a : Analysis) : Q :=
  0.15 * Qmin (inject_Z (Z.of_nat (url_length a)) / 75) 1
  + 0.20 * Qmin (inject_Z (Z.of_nat (special_chars_count a)) / 10) 1
  + 0.15 * Qmin (inject_Z (Z.of_nat (subdomain_depth a)) / 3) 1
  + 0.10 * Qmin (inject_Z (Z.of_nat (path_depth a)) / 4) 1
  + 0.25 * Qmin (inject_Z (Z.of_nat (length (found_keywords a))) / 3) 1
  + 0.15 * (if existsb (String.eqb (tld a)) high_risk_tld_table
            then 1 else 0).

Lemma high_risk_tlds_table (t : string) :
  bool_decide (t ∈ high_risk_tlds init)
  = existsb (String.eqb t) high_risk_tld_table.
Proof.
  apply eq_true_iff_eq.
  rewrite bool_decide_eq_true, existsb_exists.
  assert (Hin : t ∈ high_risk_tlds init <-> In t high_risk_tld_table).
  { simpl. rewrite !elem_of_union, !elem_of_singleton. intuition auto. }
  rewrite Hin. split.
  - intros H. exists t. split; [exact H | apply String.eqb_refl].
  - intros (x & Hx & E). apply String.eqb_eq in E. subst x. exact Hx.
Qed.

(** C2.  With the configuration of [__init__], [calculate_risk_score]
    returns, for every structural analysis, the six normalised factors of
    the fixed table, in its order and under its names, and as composite
    score the weighted sum 0.15, 0.20, 0.15, 0.10, 0.25, 0.15 of exactly
    these six. *)
Theorem calculate_risk_score_fixed_table (a : Analysis) :
  exists (total : Q) (scores : Py.dict Q),
    calculate_risk_score a init = (Some (total, scores), init)
    /\ total == composite_table a
    /\ Forall2 (fun kv row => fst kv = fst row /\ snd kv == snd row)
               scores (normalised_table a).
Proof.
  exists (total_of a), (scores_of a).
  split; [apply calculate_risk_score_init |]. split.
  - unfold total_of, composite_table. rewrite !min_Qmin.
    rewrite high_risk_tlds_table. unfold Py.of_nat. ring.
  - unfold scores_of, normalised_table.
    repeat (apply List.Forall2_cons;
            [split; [reflexivity |];
             first [ apply min_Qmin
                   | simpl snd; rewrite high_risk_tlds_table; reflexivity ] |]).
    apply List.Forall2_nil.
Qed.

End RiskScore.

(** ** Recorded results of the imported libraries

    What [urllib.parse.urlparse] (CPython 3.11), [tldextract.extract],
    [validators.url] and [hashlib.md5] return on the URLs of the
    examples; on any other URL the value below is arbitrary and no
    example reads it.  The closed examples run the methods with these;
    the general theorems hold for every behaviour of the libraries. *)

Module Recorded.

Definition urlparse (url : string) : option ParseResult :=
  if String.eqb url "http://192.168.1.1/login"
  then Some (mkParseResult "http" "192.168.1.1" "/login" "" "" "")
  else if String.eqb url "https://www.google.com"
  then Some (mkParseResult "https" "www.google.com" "" "" "" "")
  else if String.eqb url "http://example.com/1.2.3.4"
  then Some (mkParseResult "http" "example.com" "/1.2.3.4" "" "" "")
  else if String.eqb url "ht!tp://example.com/login"
  then Some (mkParseResult "" "" "ht!tp://example.com/login" "" "" "")
  else None.

Definition tldextract_extract (url : string) : ExtractResult :=
  if String.eqb url "http://192.168.1.1/login"
  then mkExtractResult "" "192.168.1.1" ""
  else if String.eqb url "https://www.google.com"
  then mkExtractResult "www" "google" "com"
  else mkExtractResult "" "example" "com".

Definition validators_url (url : string) : bool :=
  String.eqb url "http://192.168.1.1/login"
  || String.eqb url "https://www.google.com"
  || String.eqb url "http://example.com/1.2.3.4".

Definition md5_hexdigest (url : string) : string :=
  if String.eqb url "http://192.168.1.1/login"
  then "a7fe6a7437c1c1e6a1f2ca6c590cff86"
  else if String.eqb url "https://www.google.com"
  then "8ffdefbdec956b595d257f0aaeefd623"
  else "".

End Recorded.

(** ** Feature extraction *)

Module Features.

Import Re URLFeatureExtractor.
#[local] Open Scope Z_scope.

Lemma has_ip_address_cases (url : string) :
  (search ip_pattern url = true /\ has_ip_address url = -1)
  \/ (search ip_pattern url = false /\ has_ip_address url = 1).
Proof.
  unfold has_ip_address. destruct (search ip_pattern url); auto.
Qed.

Lemma ip_pattern_lang (m : list ascii) :
  Lang ip_pattern m
  <-> Lang ipv4_dotted m \/ Lang ipv4_hex m \/ Lang ipv6_full m.
Proof.
  unfold ip_pattern. split.
  - intros H. inversion H as [| | | ? ? ? H1 | ? ? ? H1 | |]; subst; [auto |].
    inversion H1; subst; auto.
  - intros [H | [H | H]].
    + apply L_AltL. exact H.
    + apply L_AltR, L_AltL. exact H.
    + apply L_AltR, L_AltR. exact H.
Qed.

(** *** C4 *)

(** The URL of the counterexample and what [urlparse] makes of it: the
    host is a name, the dotted quad is in the path. *)
Definition path_ip_url : string := "http://example.com/1.2.3.4".

(** C4 as stated does not hold: the flag of
    [http://example.com/1.2.3.4] is -1 although no part of its host
    [example.com] matches the pattern. *)
Lemma has_ip_address_host_counterexample :
  exists parsed : ParseResult,
    Recorded.urlparse path_ip_url = Some parsed
    /\ netloc parsed = "example.com"
    /\ ~ (has_ip_address path_ip_url = -1
          <-> search ip_pattern (netloc parsed) = true).
Proof.
  eexists. split; [reflexivity |]. split; [reflexivity |].
  intros [H _]. specialize (H eq_refl). vm_compute in H. discriminate.
Qed.

(** C4, amended.  The flag is -1 exactly when some substring of the
    whole URL string, host or not, is an IPv4 dotted quad, an IPv4
    hex-octet form or a full IPv6 colon-hex form of the pattern, and +1
    exactly when none is. *)
Theorem has_ip_address_whole_url (url : string) :
  let matched :=
    exists a m b : list ascii,
      PyStr.chars url = (a ++ m ++ b)%list
      /\ (Lang ipv4_dotted m \/ Lang ipv4_hex m \/ Lang ipv6_full m) in
  (has_ip_address url = -1 <-> matched)
  /\ (has_ip_address url = 1 <-> ~ matched).
Proof.
  intros matched.
  assert (Hs : search ip_pattern url = true <-> matched).
  { unfold search, matched. rewrite ReFacts.search_chars_spec.
    split; intros (a & m & b & E & H); exists a, m, b;
      (split; [exact E | apply ip_pattern_lang; exact H]). }
  destruct (has_ip_address_cases url) as [[E ->] | [E ->]].
  - split; split.
    + intros _. apply Hs. exact E.
    + reflexivity.
    + discriminate.
    + intros Hn. exfalso. apply Hn, Hs. exact E.
  - split; split.
    + discriminate.
    + intros Hm. apply Hs in Hm. congruence.
    + intros _ Hm. apply Hs in Hm. congruence.
    + reflexivity.
Qed.

(** *** C3 *)

(** A URL with a malformed scheme: [urlparse] finds neither scheme nor
    host and returns the whole string as the path. *)
Definition malformed_scheme_url : string := "ht!tp://example.com/login".

(** C3 as stated does not hold: for [ht!tp://example.com/login] the
    host is not parsed, and the vector is (0, 25, 0, 1, 1), not
    (0, 0, 0, 0, 1). *)
Lemma extract_features_default_counterexample :
  (exists parsed : ParseResult,
     Recorded.urlparse malformed_scheme_url = Some parsed
     /\ netloc parsed = "")
  /\ extract_features Recorded.urlparse malformed_scheme_url
     = Some [[0; 25; 0; 1; 1]]
  /\ extract_features Recorded.urlparse malformed_scheme_url
     <> Some [[0; 0; 0; 0; 1]].
Proof.
  split; [eexists; split; reflexivity |].
  split; [vm_compute; reflexivity |].
  vm_compute. discriminate.
Qed.

Section WithUrlparse.

Variable urlparse : string -> option ParseResult.

Lemma fd_length_nonneg (url : string) : 0 <= fd_length urlparse url.
Proof.
  unfold fd_length. destruct (urlparse url) as [parsed |]; [| lia].
  destruct (nth_error _ 1); lia.
Qed.

(** A parse error inside [fd_length] gives 0. *)
Lemma fd_length_parse_error (url : string) :
  urlparse url = None -> fd_length urlparse url = 0.
Proof. intros E. unfold fd_length. rewrite E. reflexivity. Qed.

(** C3, amended.  For every URL that [urlparse] returns with an empty
    network location, [extract_features] returns the vector whose first
    field is 0 and whose other fields are the length of the parsed path,
    the length of the path's first directory, the number of dots in the
    whole URL and the IP flag of the whole URL: they are computed, not
    reset to defaults.  The first-directory length is never negative and
    is 0 where [urlparse] fails inside [fd_length]; the flag is 1 or -1. *)
Theorem extract_features_unparsed_host (url : string) (parsed : ParseResult) :
  urlparse url = Some parsed ->
  netloc parsed = "" ->
  extract_features urlparse url
  = Some [[ 0;
            Z.of_nat (String.length (path parsed));
            fd_length urlparse url;
            Z.of_nat (PyStr.count "." url);
            has_ip_address url ]]
  /\ 0 <= fd_length urlparse url
  /\ (has_ip_address url = 1 \/ has_ip_address url = -1)
  /\ (forall u : string, urlparse u = None -> fd_length urlparse u = 0).
Proof.
  intros Hp Hn. split.
  - unfold extract_features. rewrite Hp, Hn. reflexivity.
  - split; [apply fd_length_nonneg |]. split.
    + destruct (has_ip_address_cases url) as [[_ ->] | [_ ->]]; auto.
    + apply fd_length_parse_error.
Qed.

End WithUrlparse.

Lemma extract_features_unparsed_host_witness :
  extract_features Recorded.urlparse malformed_scheme_url
  = Some [[ 0; 25; 0; 1; 1 ]].
Proof.
  pose proof (extract_features_unparsed_host Recorded.urlparse
                malformed_scheme_url
                (mkParseResult "" "" malformed_scheme_url "" "" "")
                eq_refl eq_refl) as [H _].
  exact H.
Defined.

End Features.

(** ** Structural analysis *)

Module Structure.

Import URLSecurityAnalyzer.


Section WithLibraries.

Variable urlparse : string -> option ParseResult.
Variable tldextract_extract : string -> ExtractResult.

Abbreviation analyze := (analyze_url_structure urlparse tldextract_extract).

(** The method assigns nothing, and what it returns is built from the
    two library results. *)
Lemma analyze_url_structure_inv (url : string) (s s' : Analyzer)
  (a : Analysis) :
  analyze url s = (Some a, s') ->
  s' = s
  /\ subdomain_depth a
     = length (PyStr.split "." (subdomain (tldextract_extract url)))
  /\ tld a = suffix (tldextract_extract url)
  /\ has_ip_address a = Re.search dotted_numbers url
  /\ found_keywords a
     = filter (fun kw => PyStr.contains kw (PyStr.lower url))
              (suspicious_keywords s).
Proof.
  unfold analyze_url_structure, mbind, method_bind, bind, try_.
  destruct (urlparse url) as [parsed |]; simpl; [| discriminate].
  intros H. injection H as <- <-. simpl. auto.
Qed.

(** *** C7 *)

(** C7.  For every URL whose extracted subdomain part is the empty
    string, the structural analysis reports [subdomain_depth] 1. *)
Theorem empty_subdomain_depth_one (url : string) (s s' : Analyzer)
  (a : Analysis) :
  analyze url s = (Some a, s') ->
  subdomain (tldextract_extract url) = "" ->
  subdomain_depth a = 1%nat.
Proof.
  intros Ha Hsub. apply analyze_url_structure_inv in Ha as (_ & -> & _).
  rewrite Hsub. reflexivity.
Qed.

(** *** C10 *)


End WithLibraries.

Definition ip_login_url : string := "http://192.168.1.1/login".

(** The analysis of [http://192.168.1.1/login]. *)
Definition ip_login_analysis : Analysis := {|
  url_length := 24;
  special_chars_count := 1;
  subdomain_depth := 1;
  path_depth := 1;
  found_keywords := ["login"];
  tld := "";
  uses_https := false;
  has_ip_address := true;
  excessive_dots := false;
  numeric_domain := true;
  domain_length := 11;
  path_length := 6;
  query_length := 0
|}.

Lemma ip_login_analysis_eq :
  analyze_url_structure Recorded.urlparse Recorded.tldextract_extract
    ip_login_url init = (Some ip_login_analysis, init).
Proof. vm_compute. reflexivity. Qed.

Lemma empty_subdomain_depth_one_witness :
  subdomain (Recorded.tldextract_extract ip_login_url) = ""
  /\ subdomain_depth ip_login_analysis = 1%nat.
Proof.
  split; [reflexivity |].
  apply (empty_subdomain_depth_one Recorded.urlparse
           Recorded.tldextract_extract ip_login_url init init).
  - apply ip_login_analysis_eq.
  - reflexivity.
Defined.


End Structure.

(** ** Methods that assign nothing *)

Module ReadsOnly.

(** [m] leaves the object as it found it, whether it returns or raises. *)
Definition reads_only {S A : Type} (m : method S A) : Prop :=
  forall s : S, snd (m s) = s.

Lemma ret_reads_only {S A : Type} (a : A) : reads_only (S := S) (mret a).
Proof. intros s. reflexivity. Qed.

Lemma self_reads_only {S : Type} : reads_only (S := S) self.
Proof. intros s. reflexivity. Qed.

Lemma try_reads_only {S A : Type} (o : option A) :
  reads_only (S := S) (try_ o).
Proof. intros s. reflexivity. Qed.

Lemma bind_reads_only {S A B : Type} (m : method S A) (k : A -> method S B) :
  reads_only m -> (forall a : A, reads_only (k a)) -> reads_only (m ≫= k).
Proof.
  intros Hm Hk s. unfold mbind, method_bind, bind.
  specialize (Hm s). destruct (m s) as [[a |] s1]; simpl in Hm; subst s1.
  - apply Hk.
  - reflexivity.
Qed.

(** What a sequence of two methods returns when the first returns. *)
Lemma bind_returns {S A B : Type} (m : method S A) (k : A -> method S B)
  (s s1 : S) (a : A) :
  m s = (Some a, s1) -> (m ≫= k) s = k a s1.
Proof. intros E. unfold mbind, method_bind, bind. rewrite E. reflexivity. Qed.

Lemma bind_raises {S A B : Type} (m : method S A) (k : A -> method S B)
  (s s1 : S) :
  m s = (None, s1) -> (m ≫= k) s = (None, s1).
Proof. intros E. unfold mbind, method_bind, bind. rewrite E. reflexivity. Qed.

Ltac reads_only_step :=
  first [ apply ret_reads_only | apply self_reads_only | apply try_reads_only
        | apply bind_reads_only; [| intros ?] ].

End ReadsOnly.

(** ** Assessment of a URL *)

Module Assessment.

Import URLSecurityAnalyzer URLScannerApp ReadsOnly.

Lemma factor_reads_only (name key : string) : reads_only (factor name key).
Proof. unfold factor. repeat reads_only_step. Qed.

Lemma threshold_risk_reads_only (name : string) (value : nat) :
  reads_only (threshold_risk name value).
Proof.
  unfold threshold_risk. reads_only_step; [apply factor_reads_only |].
  repeat reads_only_step.
Qed.

Lemma weighted_sum_reads_only (items : Py.dict Q) (acc : Q) :
  reads_only (weighted_sum items acc).
Proof.
  revert acc. induction items as [| [name score] rest IH]; intros acc; simpl.
  - apply ret_reads_only.
  - reads_only_step; [apply factor_reads_only | apply IH].
Qed.

Lemma calculate_risk_score_reads_only (a : Analysis) :
  reads_only (calculate_risk_score a).
Proof.
  unfold calculate_risk_score.
  repeat (reads_only_step; [apply threshold_risk_reads_only |]).
  reads_only_step; [apply try_reads_only |].
  reads_only_step; [apply self_reads_only |].
  reads_only_step; [apply weighted_sum_reads_only |].
  apply ret_reads_only.
Qed.

Lemma get_security_insights_reads_only (a : Analysis) (scores : Py.dict Q) :
  reads_only (get_security_insights a scores).
Proof. unfold get_security_insights. repeat reads_only_step. Qed.

Section WithLibraries.

Variable urlparse : string -> option ParseResult.
Variable tldextract_extract : string -> ExtractResult.

Abbreviation analyze := (analyze_url_structure urlparse tldextract_extract).
Abbreviation assess := (URLScannerApp.assess urlparse tldextract_extract).

Lemma analyze_url_structure_reads_only (url : string) :
  reads_only (analyze url).
Proof. unfold analyze_url_structure. repeat reads_only_step. Qed.

Lemma assess_reads_only (url : string) : reads_only (assess url).
Proof.
  unfold URLScannerApp.assess.
  apply bind_reads_only; [apply analyze_url_structure_reads_only |].
  intros analysis.
  apply bind_reads_only; [apply calculate_risk_score_reads_only |].
  intros [risk_score risk_scores].
  apply bind_reads_only; [apply get_security_insights_reads_only |].
  intros ins. apply ret_reads_only.
Qed.

Lemma analyze_url_structure_returns (url : string) (s : Analyzer)
  (parsed : ParseResult) :
  urlparse url = Some parsed ->
  exists a : Analysis, analyze url s = (Some a, s).
Proof.
  intros E.
  unfold analyze_url_structure, mbind, method_bind, bind, try_, self.
  rewrite E. eexists. reflexivity.
Qed.

Lemma in_append {A : Type} (l : list A) (x : A) : In x (Py.append l x).
Proof. unfold Py.append. apply in_or_app. right. left. reflexivity. Qed.

(** The two rules of [get_security_insights] on IP addresses and on
    keywords. *)
Lemma get_security_insights_returns (a : Analysis) (scores : Py.dict Q)
  (s : Analyzer) :
  exists ins : Insights,
    get_security_insights a scores s = (Some ins, s)
    /\ (has_ip_address a = true ->
        In "Uses an IP address instead of a domain name, which is suspicious for legitimate websites"
           (high_risk_factors ins))
    /\ (found_keywords a <> [] ->
        In ("Contains suspicious keywords: "
            +:+ PyStr.join ", " (found_keywords a))
           (moderate_risk_factors ins)).
Proof.
  unfold get_security_insights, mbind, method_bind, bind, self.
  eexists. split; [reflexivity |]. split; simpl.
  - intros ->. apply in_append.
  - intros Hk. destruct (found_keywords a); [congruence |]. apply in_append.
Qed.

(** *** C6 *)

(** C6.  For [http://192.168.1.1/login], whatever [urlparse] and
    [tldextract] return for it: the feature vector ends in the flag -1,
    the structural analysis has [has_ip_address] true and
    [found_keywords] equal to [login] alone, and the insights hold the
    high-risk statement on IP addresses and the moderate-risk statement
    listing [login]. *)
Theorem ip_login_assessment (parsed : ParseResult) :
  urlparse "http://192.168.1.1/login" = Some parsed ->
  (exists row : list Z,
     URLFeatureExtractor.extract_features urlparse "http://192.168.1.1/login"
     = Some [row]
     /\ length row = 5%nat
     /\ nth_error row 4 = Some (-1)%Z)
  /\ (exists a : Analysis,
        analyze "http://192.168.1.1/login" init = (Some a, init)
        /\ has_ip_address a = true
        /\ found_keywords a = ["login"])
  /\ (exists r : RiskAssessment,
        assess "http://192.168.1.1/login" init = (Some r, init)
        /\ In "Uses an IP address instead of a domain name, which is suspicious for legitimate websites"
              (high_risk_factors (insights r))
        /\ In "Contains suspicious keywords: login"
              (moderate_risk_factors (insights r))).
Proof.
  intros Hp.
  destruct (analyze_url_structure_returns _ init _ Hp) as [a Ha].
  destruct (Structure.analyze_url_structure_inv _ _ _ _ _ _ Ha)
    as (_ & _ & _ & Hip & Hkw).
  assert (Hip' : has_ip_address a = true) by (rewrite Hip; reflexivity).
  assert (Hkw' : found_keywords a = ["login"]) by (rewrite Hkw; reflexivity).
  split; [| split].
  - unfold URLFeatureExtractor.extract_features. rewrite Hp.
    eexists. split; [reflexivity |]. split; reflexivity.
  - exists a. auto.
  - destruct (get_security_insights_returns a (RiskScore.scores_of a) init)
      as (ins & Hins & Hhigh & Hmod).
    exists {| composite_score := RiskScore.total_of a;
              factor_scores := RiskScore.scores_of a;
              insights := ins |}.
    split.
    + unfold URLScannerApp.assess.
      rewrite (bind_returns _ _ _ _ _ Ha).
      rewrite (bind_returns _ _ _ _ _ (RiskScore.calculate_risk_score_init a)).
      rewrite (bind_returns _ _ _ _ _ Hins). reflexivity.
    + simpl. split; [apply Hhigh; exact Hip' |].
      rewrite Hkw' in Hmod. apply Hmod. discriminate.
Qed.

(** *** C8 *)

(** C8.  Assessing the same URL twice in a row, with the analyzer in
    any state and the libraries behaving as functions, gives what one
    assessment gives, twice: the same composite score, factor scores
    and insight lists.  The analyzer is left as it was. *)
Theorem assess_twice_identical (url : string) (s : Analyzer) :
  (r1 ← assess url; r2 ← assess url; mret (r1, r2)) s
  = (r ← assess url; mret (r, r)) s
  /\ snd (assess url s) = s.
Proof.
  pose proof (assess_reads_only url s) as Hs.
  split; [| exact Hs].
  destruct (assess url s) as [[r |] s1] eqn:E; simpl in Hs; subst s1.
  - rewrite (bind_returns _ _ _ _ _ E), (bind_returns _ _ _ _ _ E).
    rewrite (bind_returns _ _ _ _ _ E). reflexivity.
  - rewrite (bind_raises _ _ _ _ E), (bind_raises _ _ _ _ E). reflexivity.
Qed.

End WithLibraries.

(** [http://192.168.1.1/login] with the recorded library results: the
    vector, and the three lists of insights in full. *)
Lemma ip_login_features :
  URLFeatureExtractor.extract_features Recorded.urlparse
    "http://192.168.1.1/login" = Some [[11; 6; 5; 3; -1]%Z].
Proof. vm_compute. reflexivity. Qed.

Lemma ip_login_insights :
  exists r : RiskAssessment,
    URLScannerApp.assess Recorded.urlparse Recorded.tldextract_extract
      "http://192.168.1.1/login" init = (Some r, init)
    /\ high_risk_factors (insights r)
       = ["Uses an IP address instead of a domain name, which is suspicious for legitimate websites"]
    /\ moderate_risk_factors (insights r)
       = ["Contains suspicious keywords: login"]
    /\ security_positives (insights r)
       = ["Normal number of dots in the domain name"].
Proof.
  destruct (URLScannerApp.assess Recorded.urlparse
              Recorded.tldextract_extract "http://192.168.1.1/login" init)
    as [[r |] s] eqn:E; vm_compute in E; [| discriminate].
  injection E as <- <-. eexists. split; [reflexivity |].
  repeat split.
Qed.

Lemma ip_login_assessment_witness :
  exists r : RiskAssessment,
    URLScannerApp.assess Recorded.urlparse Recorded.tldextract_extract
      "http://192.168.1.1/login" init = (Some r, init)
    /\ In "Contains suspicious keywords: login"
          (moderate_risk_factors (insights r)).
Proof.
  destruct (ip_login_assessment Recorded.urlparse Recorded.tldextract_extract
              (mkParseResult "http" "192.168.1.1" "/login" "" "" "") eq_refl)
    as (_ & _ & r & Hr & _ & Hmod).
  exists r. split; [exact Hr | exact Hmod].
Defined.

End Assessment.

(** ** The scanner page without a classifier *)

Module Page.

Import URLScannerApp.

(** The application after [r] is put on the screen. *)
Definition shown (r : rendered) (app : App) : App :=
  {| db := db app; model := model app;
     security_analyzer := security_analyzer app;
     screen := Py.append (screen app) r |}.

Definition is_security_analysis (r : rendered) : bool :=
  match r with
  | security_analysis _ _ _ => true
  | _ => false
  end.

(** *** C5 *)

(** An application whose model file did not load, and one whose model
    raises on every call. *)
Definition unloaded_app : App :=
  {| db := ∅; model := None;
     security_analyzer := URLSecurityAnalyzer.init; screen := [] |}.

Definition failing_app : App :=
  {| db := ∅; model := Some (fun _ => None);
     security_analyzer := URLSecurityAnalyzer.init; screen := [] |}.

(** C5 as stated does not hold: a scan of the valid URL
    [https://www.google.com] without a usable model puts one error
    message on the screen and no security analysis, so no heuristic
    composite score is produced. *)
Lemma classifier_unavailable_counterexample :
  Recorded.validators_url "https://www.google.com" = true
  /\ show_url_scanner_page Recorded.urlparse Recorded.tldextract_extract
       Recorded.validators_url Recorded.md5_hexdigest
       0 "https://www.google.com" unloaded_app
     = (Some tt, shown (st_error "Please enter a valid URL") unloaded_app)
  /\ show_url_scanner_page Recorded.urlparse Recorded.tldextract_extract
       Recorded.validators_url Recorded.md5_hexdigest
       0 "https://www.google.com" failing_app
     = (Some tt,
        shown (st_error_exception "Error predicting URL: ") failing_app)
  /\ existsb is_security_analysis
       (screen (shown (st_error "Please enter a valid URL") unloaded_app))
     = false
  /\ existsb is_security_analysis
       (screen (shown (st_error_exception "Error predicting URL: ")
                  failing_app))
     = false.
Proof. repeat split. Qed.

Section WithLibraries.

Variable urlparse : string -> option ParseResult.
Variable tldextract_extract : string -> ExtractResult.
Variable validators_url : string -> bool.
Variable md5_hexdigest : string -> string.

Abbreviation predict :=
  (predict_url urlparse md5_hexdigest).
Abbreviation page :=
  (show_url_scanner_page urlparse tldextract_extract validators_url
     md5_hexdigest).

(** The model is missing, or it raises on the features of the URL. *)
Definition classifier_unavailable (app : App) (url : string) : Prop :=
  match model app with
  | None => True
  | Some the_model =>
      exists features : list (list Z),
        URLFeatureExtractor.extract_features urlparse url = Some features
        /\ the_model features = None
  end.

Lemma predict_url_unavailable (now : Z) (url : string) (app : App) :
  classifier_unavailable app url ->
  predict now url app
  = (Some None,
     shown (match model app with
            | None => st_error "Model not loaded. Please check the model file."
            | Some _ => st_error_exception "Error predicting URL: "
            end) app).
Proof.
  unfold classifier_unavailable, predict_url.
  unfold mbind, method_bind, bind, self, try_except, try_.
  destruct (model app) as [the_model |] eqn:Em.
  - intros (features & -> & ->). reflexivity.
  - intros _. reflexivity.
Qed.

(** C5, amended.  When the model is missing or raises when invoked,
    [predict_url] returns the absent prediction, not zero, and raises
    nothing; the page raises nothing, writes no history row and puts
    exactly one error message on the screen.  It shows no security
    analysis: without a prediction the heuristic composite score is not
    produced. *)
Theorem classifier_unavailable_page (now : Z) (url : string) (app : App) :
  classifier_unavailable app url ->
  fst (predict now url app) = Some None
  /\ db (snd (predict now url app)) = db app
  /\ exists msg : rendered,
       page now url app = (Some tt, shown msg app)
       /\ is_security_analysis msg = false
       /\ (msg = st_error "Please enter a valid URL"
           \/ msg = st_error_exception "Error predicting URL: ").
Proof.
  intros H. pose proof (predict_url_unavailable now url app H) as Hp.
  rewrite Hp. split; [reflexivity |]. split; [reflexivity |].
  unfold show_url_scanner_page.
  unfold mbind at 1, method_bind at 1, bind at 1, self at 1.
  destruct (model app) as [the_model |] eqn:Em; simpl.
  - destruct (validators_url url).
    + exists (st_error_exception "Error predicting URL: ").
      split; [| auto].
      rewrite (ReadsOnly.bind_returns _ _ _ _ _ Hp). reflexivity.
    + exists (st_error "Please enter a valid URL"). auto.
  - exists (st_error "Please enter a valid URL"). auto.
Qed.

End WithLibraries.

Lemma classifier_unavailable_page_witness :
  classifier_unavailable Recorded.urlparse failing_app "https://www.google.com"
  /\ fst (predict_url Recorded.urlparse Recorded.md5_hexdigest
            0 "https://www.google.com" failing_app) = Some None.
Proof.
  assert (H : classifier_unavailable Recorded.urlparse failing_app
                "https://www.google.com").
  { simpl. eexists. split; reflexivity. }
  split; [exact H |].
  exact (proj1 (classifier_unavailable_page Recorded.urlparse
                  Recorded.tldextract_extract Recorded.validators_url
                  Recorded.md5_hexdigest 0 "https://www.google.com"
                  failing_app H)).
Defined.

End Page.

(** ** The scan history *)

Module History.

Import URLDatabase.




Section WithHash.

Variable md5_hexdigest : string -> string.










(** *** C9 *)


End WithHash.



End History.

(** * More of the module *)

(** ** Facts on Python strings *)

Module PyStrFacts.

Import PyStr.

Lemma app_cons (c : ascii) (a b : string) :
  String c a +:+ b = String c (a +:+ b).
Proof. reflexivity. Qed.

Lemma app_empty_l (b : string) : "" +:+ b = b.
Proof. reflexivity. Qed.

Lemma app_empty_r (a : string) : a +:+ "" = a.
Proof.
  induction a as [| c a IH]; [reflexivity |].
  rewrite app_cons, IH. reflexivity.
Qed.

Lemma app_assoc (a b c : string) : (a +:+ b) +:+ c = a +:+ (b +:+ c).
Proof.
  induction a as [| d a IH]; [reflexivity |].
  rewrite !app_cons, IH. reflexivity.
Qed.

Lemma length_app (a b : string) :
  String.length (a +:+ b) = (String.length a + String.length b)%nat.
Proof.
  induction a as [| d a IH]; [reflexivity |].
  rewrite app_cons. simpl. rewrite IH. reflexivity.
Qed.

Lemma count_app (c : ascii) (a b : string) :
  count c (a +:+ b) = (count c a + count c b)%nat.
Proof.
  induction a as [| d a IH]; [reflexivity |].
  rewrite app_cons. simpl. rewrite IH. lia.
Qed.

Lemma count_le_length (c : ascii) (s : string) :
  (count c s <= String.length s)%nat.
Proof.
  induction s as [| d s IH]; simpl; [lia |].
  destruct (Ascii.eqb d c); lia.
Qed.

Lemma count_if_le_length (p : ascii -> bool) (s : string) :
  (count_if p s <= String.length s)%nat.
Proof.
  induction s as [| d s IH]; simpl; [lia |].
  destruct (p d); lia.
Qed.

(** The characters of all labels together. *)
Definition total_length (labels : list string) : nat :=
  fold_right (fun label n => (String.length label + n)%nat) 0%nat labels.

(** [split] returns one label more than there are separators. *)
Lemma split_count (sep : ascii) (s : string) :
  length (split sep s) = (count sep s + 1)%nat.
Proof.
  induction s as [| c s IH]; simpl; [reflexivity |].
  destruct (Ascii.eqb c sep); simpl; [rewrite IH; lia |].
  destruct (split sep s); simpl in *; lia.
Qed.

(** The labels and the separators make up the string. *)
Lemma split_total_length (sep : ascii) (s : string) :
  (total_length (split sep s) + count sep s)%nat = String.length s.
Proof.
  induction s as [| c s IH]; simpl; [reflexivity |].
  destruct (Ascii.eqb c sep); simpl; [lia |].
  pose proof (split_count sep s) as Hlen.
  destruct (split sep s); simpl in *; lia.
Qed.

(** No label holds the separator. *)
Lemma split_labels (sep : ascii) (s : string) :
  Forall (fun label => count sep label = 0%nat) (split sep s).
Proof.
  induction s as [| c s IH]; simpl.
  - repeat constructor.
  - destruct (Ascii.eqb c sep) eqn:E.
    + constructor; [reflexivity | exact IH].
    + destruct (split sep s) as [| label rest].
      * constructor; [simpl; rewrite E; reflexivity | constructor].
      * apply Forall_cons in IH as [Hl Hr]. constructor; [| exact Hr].
        simpl. rewrite E, Hl. reflexivity.
Qed.

Lemma concat_cons (sep x y : string) (l : list string) :
  String.concat sep (x :: y :: l) = x +:+ sep +:+ String.concat sep (y :: l).
Proof. reflexivity. Qed.

(** [sep.join(s.split(sep)) == s] *)
Lemma join_split (sep : ascii) (s : string) :
  join (String sep "") (split sep s) = s.
Proof.
  unfold join. induction s as [| c s IH]; [reflexivity |].
  pose proof (split_count sep s) as Hlen.
  cbn [split].
  destruct (split sep s) as [| label rest] eqn:Es; [simpl in Hlen; lia |].
  destruct (Ascii.eqb c sep) eqn:E.
  - apply Ascii.eqb_eq in E. subst c.
    rewrite concat_cons, IH. reflexivity.
  - destruct rest as [| label' rest'].
    + simpl in *. rewrite IH. reflexivity.
    + rewrite concat_cons in *. rewrite app_cons, IH. reflexivity.
Qed.

(** A string without the separator is its own single label. *)
Lemma split_no_sep (sep : ascii) (s : string) :
  count sep s = 0%nat -> split sep s = [s].
Proof.
  induction s as [| c s IH]; simpl; [reflexivity |].
  destruct (Ascii.eqb c sep); [discriminate |].
  intros H. rewrite (IH H). reflexivity.
Qed.

(** The first label ends at the first separator. *)
Lemma split_first (sep : ascii) (a b : string) :
  count sep a = 0%nat ->
  split sep (a +:+ String sep b) = a :: split sep b.
Proof.
  induction a as [| c a IH]; intros H.
  - rewrite app_empty_l. simpl. rewrite Ascii.eqb_refl. reflexivity.
  - rewrite app_cons. simpl in *.
    destruct (Ascii.eqb c sep); [discriminate |].
    rewrite (IH H). reflexivity.
Qed.

Lemma lower_char_idempotent (c : ascii) :
  lower_char (lower_char c) = lower_char c.
Proof.
  destruct c as [[] [] [] [] [] [] [] []]; vm_compute; reflexivity.
Qed.

Lemma lower_idempotent (s : string) : lower (lower s) = lower s.
Proof.
  induction s as [| c s IH]; simpl; [reflexivity |].
  rewrite lower_char_idempotent, IH. reflexivity.
Qed.

Lemma prefix_spec (sub s : string) :
  String.prefix sub s = true <-> exists post : string, s = sub +:+ post.
Proof.
  revert s. induction sub as [| c sub IH]; intros s.
  - split; [intros _; exists s; reflexivity |].
    intros _. destruct s; reflexivity.
  - destruct s as [| d s]; simpl.
    + split; [discriminate | intros [post H]; discriminate].
    + destruct (ascii_dec c d) as [-> | Hne].
      * rewrite IH. split; intros [post H]; exists post.
        -- rewrite app_cons, H. reflexivity.
        -- rewrite app_cons in H. injection H as H. exact H.
      * split; [discriminate |].
        intros [post H]. rewrite app_cons in H. congruence.
Qed.

(** [sub in s]: [s] is some prefix, then [sub], then the rest. *)
Lemma contains_spec (sub s : string) :
  contains sub s = true
  <-> exists pre post : string, s = pre +:+ sub +:+ post.
Proof.
  induction s as [| c s IH]; cbn [contains].
  - rewrite orb_false_r, prefix_spec. split.
    + intros [post H]. exists "", post. exact H.
    + intros (pre & post & H). destruct pre; [| discriminate].
      exists post. exact H.
  - rewrite orb_true_iff, prefix_spec, IH. split.
    + intros [[post H] | (pre & post & H)].
      * exists "", post. exact H.
      * exists (String c pre), post. rewrite app_cons, H. reflexivity.
    + intros (pre & post & H). destruct pre as [| d pre].
      * left. exists post. exact H.
      * right. rewrite app_cons in H. injection H as _ H.
        exists pre, post. exact H.
Qed.

(** A digit is no letter, and [/] is neither. *)
Lemma digit_letter_slash (c : ascii) :
  ((if isdigit c then 1 else 0) + (if isalpha c then 1 else 0)
   + (if Ascii.eqb c "/" then 1 else 0) <= 1)%nat.
Proof.
  destruct c as [[] [] [] [] [] [] [] []]; vm_compute; lia.
Qed.

End PyStrFacts.

(** ** More on feature extraction *)

Module FeatureExtras.

Import Re URLFeatureExtractor PyStrFacts.
#[local] Open Scope Z_scope.

(** X1.  The three tallies of [count_characteristics] count disjoint
    kinds of character: together they never exceed the length of the
    URL. *)
Theorem count_characteristics_bound (url : string) :
  let '(digits, letters, dirs) := count_characteristics url in
  (digits + letters + dirs <= String.length url)%nat.
Proof.
  unfold count_characteristics.
  induction url as [| c url IH]; simpl; [lia |].
  pose proof (digit_letter_slash c) as Hc.
  destruct (PyStr.isdigit c), (PyStr.isalpha c), (Ascii.eqb c "/");
    simpl in *; lia.
Qed.

Lemma nth_error_total_length (labels : list string) (i : nat)
  (label : string) :
  nth_error labels i = Some label ->
  (String.length label <= total_length labels)%nat.
Proof.
  revert i. induction labels as [| l labels IH]; intros [| i] H;
    simpl in *; try discriminate.
  - injection H as ->. lia.
  - specialize (IH i H). lia.
Qed.

Section WithUrlparse.

Variable urlparse : string -> option ParseResult.

Lemma fd_length_le_path (url : string) (parsed : ParseResult) :
  urlparse url = Some parsed ->
  fd_length urlparse url <= Z.of_nat (String.length (path parsed)).
Proof.
  intros Hp. unfold fd_length. rewrite Hp.
  destruct (nth_error _ 1) as [segment |] eqn:E; [| lia].
  apply nth_error_total_length in E.
  pose proof (split_total_length "/" (path parsed)). lia.
Qed.

Lemma fd_length_no_slash (url : string) (parsed : ParseResult) :
  urlparse url = Some parsed ->
  PyStr.count "/" (path parsed) = 0%nat ->
  fd_length urlparse url = 0.
Proof.
  intros Hp H0. unfold fd_length. rewrite Hp.
  rewrite (split_no_sep _ _ H0). reflexivity.
Qed.

(** X2.  For a path that starts with a slash, [fd_length] is the length
    of what stands between that slash and the next one, or the end. *)
Theorem fd_length_first_directory (url : string) (parsed : ParseResult)
  (segment rest : string) :
  urlparse url = Some parsed ->
  path parsed = "/" +:+ segment +:+ rest ->
  PyStr.count "/" segment = 0%nat ->
  rest = "" \/ (exists r : string, rest = String "/" r) ->
  fd_length urlparse url = Z.of_nat (String.length segment).
Proof.
  intros Hp Hpath Hseg Hrest. unfold fd_length. rewrite Hp, Hpath.
  change ("/" +:+ segment +:+ rest) with ("" +:+ String "/" (segment +:+ rest)).
  rewrite split_first by reflexivity.
  destruct Hrest as [-> | [r ->]].
  - rewrite app_empty_r, (split_no_sep _ _ Hseg). reflexivity.
  - rewrite (split_first _ _ _ Hseg). reflexivity.
Qed.

(** X3.  [extract_features] raises exactly when [urlparse] does.
    Otherwise it returns one row of five numbers: the lengths of host
    and path, a first-directory length between 0 and the path length
    that is 0 for a path without a slash, a dot count of at most the
    URL length, and a flag that is 1 or -1. *)
Theorem extract_features_shape (url : string) :
  match urlparse url with
  | None => extract_features urlparse url = None
  | Some parsed =>
      exists fd dots flag : Z,
        extract_features urlparse url
        = Some [[ Z.of_nat (String.length (netloc parsed));
                  Z.of_nat (String.length (path parsed));
                  fd; dots; flag ]]
        /\ 0 <= fd <= Z.of_nat (String.length (path parsed))
        /\ (PyStr.count "/" (path parsed) = 0%nat -> fd = 0)
        /\ 0 <= dots <= Z.of_nat (String.length url)
        /\ (flag = 1 \/ flag = -1)
  end.
Proof.
  destruct (urlparse url) as [parsed |] eqn:Hp.
  - exists (fd_length urlparse url), (Z.of_nat (PyStr.count "." url)),
      (has_ip_address url).
    split; [unfold extract_features; rewrite Hp; reflexivity |].
    split; [split; [apply Features.fd_length_nonneg
                   | apply fd_length_le_path; exact Hp] |].
    split; [apply fd_length_no_slash; exact Hp |].
    split; [pose proof (count_le_length "." url); lia |].
    destruct (Features.has_ip_address_cases url) as [[_ ->] | [_ ->]]; auto.
  - unfold extract_features. rewrite Hp. reflexivity.
Qed.

End WithUrlparse.

Lemma fd_length_first_directory_witness :
  fd_length Recorded.urlparse "http://192.168.1.1/login" = 5.
Proof.
  apply (fd_length_first_directory Recorded.urlparse
           "http://192.168.1.1/login"
           (mkParseResult "http" "192.168.1.1" "/login" "" "" "")
           "login" "").
  - reflexivity.
  - reflexivity.
  - reflexivity.
  - left. reflexivity.
Defined.

End FeatureExtras.

(** ** The two IP checks *)

Module IpChecks.

Import Re.

Abbreviation octet := URLFeatureExtractor.octet.
Abbreviation ipv4_dotted := URLFeatureExtractor.ipv4_dotted.
Abbreviation ipv4_hex := URLFeatureExtractor.ipv4_hex.
Abbreviation ipv6_full := URLFeatureExtractor.ipv6_full.
#[local] Open Scope list_scope.

(** A non-empty run of ASCII digits. *)
Definition digits (m : list ascii) : Prop :=
  m <> [] /\ Forall (fun c => PyStr.is_ascii_digit c = true) m.

Lemma in_range_digit (lo hi : nat) (c : ascii) :
  (48 <= lo)%nat -> (hi <= 57)%nat ->
  PyStr.in_range lo hi c = true -> PyStr.is_ascii_digit c = true.
Proof.
  unfold PyStr.is_ascii_digit, PyStr.in_range. intros Hlo Hhi H.
  apply andb_true_iff in H as [H1 H2].
  apply Nat.leb_le in H1, H2.
  apply andb_true_iff. split; apply Nat.leb_le; lia.
Qed.

Lemma eqb_digit (d c : ascii) :
  PyStr.is_ascii_digit d = true -> Ascii.eqb d c = true ->
  PyStr.is_ascii_digit c = true.
Proof. intros Hd E. apply Ascii.eqb_eq in E. subst c. exact Hd. Qed.

Lemma star_digits (m : list ascii) :
  Forall (fun c => PyStr.is_ascii_digit c = true) m -> Lang (Star digit) m.
Proof.
  induction 1 as [| c m Hc _ IH]; [constructor |].
  apply (L_StarApp digit [c] m); [constructor; exact Hc | exact IH].
Qed.

Lemma digits_plus (m : list ascii) : digits m -> Lang (Plus digit) m.
Proof.
  intros [Hne Hall]. destruct m as [| c m]; [congruence |].
  apply Forall_cons in Hall as [Hc Hall].
  apply (L_Cat digit (Star digit) [c] m);
    [constructor; exact Hc | apply star_digits; exact Hall].
Qed.

Ltac lang_inv :=
  repeat match goal with
         | H : Lang (Cat _ _) _ |- _ => inversion H; subst; clear H
         | H : Lang (Alt _ _) _ |- _ => inversion H; subst; clear H
         | H : Lang (Cls _) _ |- _ => inversion H; subst; clear H
         | H : Lang Eps _ |- _ => inversion H; subst; clear H
         end.

(** Every word of the octet pattern is a run of digits. *)
Lemma octet_digits (m : list ascii) : Lang octet m -> digits m.
Proof.
  intros H. unfold URLFeatureExtractor.octet, Opt, Chr, digit in H. lang_inv; simpl;
    (split; [discriminate |]);
    repeat (apply List.Forall_cons;
            [first [ assumption
                   | eapply in_range_digit; [| | eassumption]; lia
                   | eapply eqb_digit; [| eassumption]; reflexivity ] |]);
    apply List.Forall_nil.
Qed.

(** The dotted quad of the feature extractor is a word of the looser
    pattern of the structural analysis. *)
Lemma ipv4_dotted_numbers (m : list ascii) :
  Lang ipv4_dotted m -> Lang URLSecurityAnalyzer.dotted_numbers m.
Proof.
  intros H. unfold URLFeatureExtractor.ipv4_dotted in H. cbn [Rep] in H. unfold Chr in H.
  lang_inv. simpl. rewrite <- !app_assoc. simpl.
  unfold URLSecurityAnalyzer.dotted_numbers, Chr.
  repeat match goal with
         | H : Lang octet _ |- _ =>
             apply octet_digits, digits_plus in H
         end.
  repeat match goal with
         | |- Lang (Cat (Plus digit) _) (?u ++ _) =>
             apply L_Cat; [assumption |]
         | |- Lang (Cat (Cls _) _) (?c :: ?w) =>
             apply (L_Cat _ _ [c] w); [constructor; assumption |]
         end.
  assumption.
Qed.

Lemma search_ipv4_dotted_numbers (url : string) :
  (exists a m b : list ascii,
     PyStr.chars url = a ++ m ++ b /\ Lang ipv4_dotted m) ->
  search URLSecurityAnalyzer.dotted_numbers url = true.
Proof.
  intros (a & m & b & E & H). apply ReFacts.search_chars_spec.
  exists a, m, b. split; [exact E | apply ipv4_dotted_numbers; exact H].
Qed.

Section WithLibraries.

Variable urlparse : string -> option ParseResult.
Variable tldextract_extract : string -> ExtractResult.

(** X4.  The IP check of the structural analysis is looser than the
    dotted-quad check of the feature extractor: when the flag of the
    feature vector is -1, either the analysis has [has_ip_address] true
    or the flag comes from the hex-octet or the IPv6 form. *)
Theorem ip_flag_and_has_ip_address (url : string) (s s' : Analyzer)
  (a : Analysis) :
  URLSecurityAnalyzer.analyze_url_structure urlparse tldextract_extract url s
  = (Some a, s') ->
  URLFeatureExtractor.has_ip_address url = (-1)%Z ->
  has_ip_address a = true
  \/ exists pre m post : list ascii,
       PyStr.chars url = pre ++ m ++ post
       /\ (Lang ipv4_hex m \/ Lang ipv6_full m).
Proof.
  intros Ha Hflag.
  apply Structure.analyze_url_structure_inv in Ha as (_ & _ & _ & -> & _).
  destruct (Features.has_ip_address_cases url) as [[E _] | [_ E]];
    [| congruence].
  apply ReFacts.search_chars_spec in E as (pre & m & post & E & H).
  apply Features.ip_pattern_lang in H as [H | H].
  - left. apply search_ipv4_dotted_numbers. exists pre, m, post. auto.
  - right. exists pre, m, post. auto.
Qed.

End WithLibraries.

Lemma ip_flag_and_has_ip_address_witness :
  URLFeatureExtractor.has_ip_address Structure.ip_login_url = (-1)%Z
  /\ (has_ip_address Structure.ip_login_analysis = true
      \/ exists pre m post : list ascii,
           PyStr.chars Structure.ip_login_url = pre ++ m ++ post
           /\ (Lang ipv4_hex m \/ Lang ipv6_full m)).
Proof.
  split; [reflexivity |].
  apply (ip_flag_and_has_ip_address Recorded.urlparse
           Recorded.tldextract_extract Structure.ip_login_url
           URLSecurityAnalyzer.init URLSecurityAnalyzer.init).
  - apply Structure.ip_login_analysis_eq.
  - reflexivity.
Defined.

End IpChecks.

(** ** More on the structural analysis *)

Module StructureExtras.

Import URLSecurityAnalyzer PyStrFacts.

Lemma findall_cls_count (p : ascii -> bool) (s : string) :
  length (Re.findall_cls p s) = PyStr.count_if p s.
Proof.
  induction s as [| c s IH]; simpl; [reflexivity |].
  destruct (p c); simpl; rewrite IH; reflexivity.
Qed.

Lemma count_if_zero (p : ascii -> bool) (s : string) :
  PyStr.count_if p s = 0%nat
  <-> Forall (fun c => p c = false) (PyStr.chars s).
Proof.
  induction s as [| c s IH]; simpl.
  - split; [constructor | reflexivity].
  - rewrite Forall_cons. destruct (p c); simpl.
    + split; [discriminate | intros [H _]; discriminate].
    + rewrite IH. tauto.
Qed.

(** Each label that is not empty has a character of its own. *)
Lemma nonempty_labels_le (labels : list string) :
  (length (filter (fun x => negb (String.eqb x "")) labels)
   <= total_length labels)%nat.
Proof.
  induction labels as [| l labels IH]; simpl; [lia |].
  rewrite filter_cons. destruct (decide _) as [H | H]; simpl.
  - destruct l; [simpl in H; contradiction | simpl; lia].
  - lia.
Qed.

Section WithLibraries.

Variable urlparse : string -> option ParseResult.
Variable tldextract_extract : string -> ExtractResult.

Abbreviation analyze := (analyze_url_structure urlparse tldextract_extract).

(** The record [analyze_url_structure] returns, field by field. *)
Lemma analyze_url_structure_fields (url : string) (s s' : Analyzer)
  (a : Analysis) :
  analyze url s = (Some a, s') ->
  exists parsed : ParseResult,
    urlparse url = Some parsed
    /\ s' = s
    /\ a = {|
      url_length := String.length url;
      special_chars_count := length (Re.findall_cls special_char url);
      subdomain_depth :=
        length (PyStr.split "." (subdomain (tldextract_extract url)));
      path_depth :=
        length (filter (fun x => negb (String.eqb x ""))
                       (PyStr.split "/" (path parsed)));
      found_keywords :=
        filter (fun kw => PyStr.contains kw (PyStr.lower url))
               (suspicious_keywords s);
      tld := suffix (tldextract_extract url);
      uses_https := String.eqb (scheme parsed) "https";
      has_ip_address := Re.search dotted_numbers url;
      excessive_dots := (3 <? PyStr.count "." url)%nat;
      numeric_domain :=
        Re.search (Re.Plus Re.digit) (domain (tldextract_extract url));
      domain_length := String.length (domain (tldextract_extract url));
      path_length := String.length (path parsed);
      query_length := String.length (query parsed)
    |}.
Proof.
  unfold analyze_url_structure, mbind, method_bind, bind, try_.
  destruct (urlparse url) as [parsed |]; simpl; [| discriminate].
  intros H. injection H as <- <-. exists parsed. auto.
Qed.

(** X5.  [subdomain_depth] is the number of dots of the subdomain plus
    one.  [path_depth] is at most the number of slashes of the path plus
    one, and the segments it counts and the slashes together fit in the
    path: [path_depth] plus the number of slashes is at most
    [path_length]. *)
Theorem depths_count_separators (url : string) (s s' : Analyzer)
  (a : Analysis) (parsed : ParseResult) :
  analyze url s = (Some a, s') ->
  urlparse url = Some parsed ->
  subdomain_depth a
  = (PyStr.count "." (subdomain (tldextract_extract url)) + 1)%nat
  /\ (path_depth a <= PyStr.count "/" (path parsed) + 1)%nat
  /\ (path_depth a + PyStr.count "/" (path parsed) <= path_length a)%nat.
Proof.
  intros Ha Hp.
  apply analyze_url_structure_fields in Ha as (parsed' & Hp' & _ & ->).
  rewrite Hp in Hp'. injection Hp' as <-. simpl.
  split; [apply split_count |]. split.
  - rewrite <- split_count. apply length_filter.
  - pose proof (nonempty_labels_le (PyStr.split "/" (path parsed))).
    pose proof (split_total_length "/" (path parsed)). lia.
Qed.

(** X6.  [special_chars_count] never exceeds [url_length], and it is 0
    exactly when every character of the URL is an ASCII letter, an ASCII
    digit, a dot, a slash or a hyphen. *)
Theorem special_chars_count_bound (url : string) (s s' : Analyzer)
  (a : Analysis) :
  analyze url s = (Some a, s') ->
  (special_chars_count a <= url_length a)%nat
  /\ (special_chars_count a = 0%nat
      <-> Forall (fun c => PyStr.is_ascii_lower c || PyStr.is_ascii_upper c
                           || PyStr.is_ascii_digit c || Ascii.eqb c "."
                           || Ascii.eqb c "/" || Ascii.eqb c "-" = true)
                 (PyStr.chars url)).
Proof.
  intros Ha.
  apply analyze_url_structure_fields in Ha as (parsed & _ & _ & ->).
  simpl. rewrite findall_cls_count. split.
  - apply count_if_le_length.
  - rewrite count_if_zero. unfold special_char.
    split; intros H; eapply Forall_impl; try exact H;
      intros c Hc; simpl in *.
    + apply negb_false_iff in Hc. exact Hc.
    + apply negb_false_iff. exact Hc.
Qed.

(** X7.  A keyword is found exactly when it is on the analyzer's list
    and occurs in the lower-cased URL as a substring; the found keywords
    keep the order of the list and none is repeated if the list repeats
    none. *)
Theorem found_keywords_spec (url : string) (s s' : Analyzer) (a : Analysis) :
  analyze url s = (Some a, s') ->
  (forall kw : string,
     kw ∈ found_keywords a
     <-> kw ∈ suspicious_keywords s
         /\ exists pre post : string,
              PyStr.lower url = pre +:+ kw +:+ post)
  /\ found_keywords a `sublist_of` suspicious_keywords s
  /\ (NoDup (suspicious_keywords s) -> NoDup (found_keywords a)).
Proof.
  intros Ha.
  apply analyze_url_structure_fields in Ha as (parsed & _ & _ & ->).
  simpl. split; [| split].
  - intros kw. rewrite list_elem_of_filter, Is_true_true, contains_spec.
    tauto.
  - apply sublist_filter.
  - apply NoDup_filter.
Qed.

(** X8.  Keyword detection ignores letter case: the analysis of a URL
    and the analysis of its lower-casing find the same keywords. *)
Theorem found_keywords_case_insensitive (url : string)
  (s s1 s2 : Analyzer) (a1 a2 : Analysis) :
  analyze url s = (Some a1, s1) ->
  analyze (PyStr.lower url) s = (Some a2, s2) ->
  found_keywords a1 = found_keywords a2.
Proof.
  intros H1 H2.
  apply analyze_url_structure_fields in H1 as (p1 & _ & _ & ->).
  apply analyze_url_structure_fields in H2 as (p2 & _ & _ & ->).
  simpl. rewrite lower_idempotent. reflexivity.
Qed.

End WithLibraries.

Lemma depths_count_separators_witness :
  subdomain_depth Structure.ip_login_analysis = 1%nat
  /\ (path_depth Structure.ip_login_analysis <= 2)%nat
  /\ (path_depth Structure.ip_login_analysis + 1
      <= path_length Structure.ip_login_analysis)%nat.
Proof.
  exact (depths_count_separators Recorded.urlparse
           Recorded.tldextract_extract Structure.ip_login_url init init
           Structure.ip_login_analysis
           (mkParseResult "http" "192.168.1.1" "/login" "" "" "")
           Structure.ip_login_analysis_eq eq_refl).
Defined.

Lemma special_chars_count_bound_witness :
  (special_chars_count Structure.ip_login_analysis
   <= url_length Structure.ip_login_analysis)%nat.
Proof.
  exact (proj1 (special_chars_count_bound Recorded.urlparse
                  Recorded.tldextract_extract Structure.ip_login_url
                  init init Structure.ip_login_analysis
                  Structure.ip_login_analysis_eq)).
Defined.

Lemma found_keywords_spec_witness :
  "login" ∈ found_keywords Structure.ip_login_analysis
  <-> "login" ∈ suspicious_keywords init
      /\ exists pre post : string,
           PyStr.lower Structure.ip_login_url = pre +:+ "login" +:+ post.
Proof.
  exact (proj1 (found_keywords_spec Recorded.urlparse
                  Recorded.tldextract_extract Structure.ip_login_url
                  init init Structure.ip_login_analysis
                  Structure.ip_login_analysis_eq) "login").
Defined.

(** [urlparse] on a URL in capitals and on its lower-casing: only the
    scheme is lower-cased by the parser. *)
Definition capitals_urlparse (url : string) : option ParseResult :=
  if String.eqb url "HTTP://EXAMPLE.COM/Login"
  then Some (mkParseResult "http" "EXAMPLE.COM" "/Login" "" "" "")
  else Some (mkParseResult "http" "example.com" "/login" "" "" "").

Lemma found_keywords_case_insensitive_witness :
  exists a1 a2 : Analysis,
    analyze_url_structure capitals_urlparse Recorded.tldextract_extract
      "HTTP://EXAMPLE.COM/Login" init = (Some a1, init)
    /\ analyze_url_structure capitals_urlparse Recorded.tldextract_extract
         "http://example.com/login" init = (Some a2, init)
    /\ found_keywords a1 = ["login"]
    /\ found_keywords a1 = found_keywords a2.
Proof.
  destruct (analyze_url_structure capitals_urlparse
              Recorded.tldextract_extract "HTTP://EXAMPLE.COM/Login" init)
    as [[a1 |] s1] eqn:E1; [| vm_compute in E1; discriminate].
  destruct (analyze_url_structure capitals_urlparse
              Recorded.tldextract_extract "http://example.com/login" init)
    as [[a2 |] s2] eqn:E2; [| vm_compute in E2; discriminate].
  pose proof (found_keywords_case_insensitive capitals_urlparse
                Recorded.tldextract_extract "HTTP://EXAMPLE.COM/Login"
                init s1 s2 a1 a2 E1 E2) as Hsame.
  vm_compute in E1. injection E1 as <- <-.
  vm_compute in E2. injection E2 as <- <-.
  do 2 eexists. split; [reflexivity |]. split; [reflexivity |].
  split; [reflexivity | exact Hsame].
Defined.

End StructureExtras.

(** ** More on the insights *)

Module InsightExtras.

Import URLSecurityAnalyzer.

(** The messages of [get_security_insights]. *)
Definition long_url_message : string :=
  "Unusually long URL length which is often associated with phishing attempts".
Definition special_chars_message : string :=
  "High number of special characters which may be used to obfuscate malicious URLs".
Definition subdomain_message : string :=
  "Multiple subdomain levels which could indicate URL manipulation".
Definition keywords_message (keywords : list string) : string :=
  "Contains suspicious keywords: " +:+ PyStr.join ", " keywords.
Definition tld_message (t : string) : string :=
  "Uses a high-risk TLD (" +:+ t
  +:+ ") commonly associated with malicious websites".
Definition ip_message : string :=
  "Uses an IP address instead of a domain name, which is suspicious for legitimate websites".
Definition https_message : string :=
  "Uses HTTPS protocol for secure communication".
Definition dots_message : string :=
  "Normal number of dots in the domain name".

Definition when (b : bool) (msg : string) : list string :=
  if b then [msg] else [].

(** The method raises nothing, assigns nothing, and returns each list
    as the messages whose conditions hold, in the order of the checks. *)
Lemma get_security_insights_lists (a : Analysis) (scores : Py.dict Q)
  (s : Analyzer) :
  get_security_insights a scores s
  = (Some {|
       high_risk_factors :=
         (when (75 <? url_length a)%nat long_url_message
          ++ when (10 <? special_chars_count a)%nat special_chars_message
          ++ when (bool_decide (tld a ∈ high_risk_tlds s))
                  (tld_message (tld a))
          ++ when (has_ip_address a) ip_message)%list;
       moderate_risk_factors :=
         (when (3 <? subdomain_depth a)%nat subdomain_message
          ++ when (negb (bool_decide (found_keywords a = [])))
                  (keywords_message (found_keywords a)))%list;
       low_risk_factors := [];
       security_positives :=
         (when (uses_https a) https_message
          ++ when (negb (excessive_dots a)) dots_message)%list
     |}, s).
Proof.
  unfold get_security_insights, mbind, method_bind, bind, self.
  cbv beta iota zeta.
  destruct (75 <? url_length a)%nat, (10 <? special_chars_count a)%nat,
    (3 <? subdomain_depth a)%nat, (bool_decide (tld a ∈ high_risk_tlds s)),
    (has_ip_address a), (uses_https a), (excessive_dots a),
    (found_keywords a); reflexivity.
Qed.

Lemma elem_of_when (x : string) (b : bool) (msg : string) :
  x ∈ when b msg <-> b = true /\ x = msg.
Proof.
  destruct b; simpl.
  - rewrite list_elem_of_singleton. intuition.
  - rewrite elem_of_nil. intuition discriminate.
Qed.

Lemma tld_message_head (t : string) :
  exists rest : string, tld_message t = "Uses a " +:+ rest.
Proof. eexists. reflexivity. Qed.

Lemma keywords_message_head (keywords : list string) :
  exists rest : string, keywords_message keywords = "C" +:+ rest.
Proof. eexists. reflexivity. Qed.

Ltac distinct_messages :=
  repeat match goal with
         | H : _ = tld_message ?t |- _ =>
             let r := fresh in
             destruct (tld_message_head t) as [r ->]; discriminate H
         | H : tld_message ?t = _ |- _ =>
             let r := fresh in
             destruct (tld_message_head t) as [r ->]; discriminate H
         | H : _ = keywords_message ?k |- _ =>
             let r := fresh in
             destruct (keywords_message_head k) as [r ->]; discriminate H
         | H : keywords_message ?k = _ |- _ =>
             let r := fresh in
             destruct (keywords_message_head k) as [r ->]; discriminate H
         | H : @eq string _ _ |- _ => discriminate H
         end.

(** The conditions of the five messages tied to a factor score. *)
Lemma insight_rules_lists (a : Analysis) (scores : Py.dict Q) (s : Analyzer) :
  exists ins : Insights,
    get_security_insights a scores s = (Some ins, s)
    /\ (long_url_message ∈ high_risk_factors ins
        <-> (75 < url_length a)%nat)
    /\ (special_chars_message ∈ high_risk_factors ins
        <-> (10 < special_chars_count a)%nat)
    /\ (tld_message (tld a) ∈ high_risk_factors ins
        <-> tld a ∈ high_risk_tlds s)
    /\ (subdomain_message ∈ moderate_risk_factors ins
        <-> (3 < subdomain_depth a)%nat)
    /\ (keywords_message (found_keywords a) ∈ moderate_risk_factors ins
        <-> found_keywords a <> []).
Proof.
  eexists. split; [apply get_security_insights_lists |]. simpl.
  rewrite !elem_of_app, !elem_of_when.
  rewrite !Nat.ltb_lt, bool_decide_eq_true, !negb_true_iff,
    bool_decide_eq_false.
  repeat split; intros; try tauto;
    repeat match goal with
           | H : _ \/ _ |- _ => destruct H
           | H : _ /\ _ |- _ => destruct H
           end;
    try assumption; distinct_messages.
Qed.

(** X9.  [get_security_insights] returns for every analysis, and each
    of its eight messages is in its list exactly when its condition
    holds: a URL longer than 75, more than 10 special characters, a
    high-risk TLD, an IP address (high risk); more than 3 subdomain
    labels, at least one keyword (moderate risk); HTTPS, at most 3 dots
    (positive).  The low-risk list is always empty. *)
Theorem insight_rules (a : Analysis) (scores : Py.dict Q) (s : Analyzer) :
  exists ins : Insights,
    get_security_insights a scores s = (Some ins, s)
    /\ (long_url_message ∈ high_risk_factors ins
        <-> (75 < url_length a)%nat)
    /\ (special_chars_message ∈ high_risk_factors ins
        <-> (10 < special_chars_count a)%nat)
    /\ (tld_message (tld a) ∈ high_risk_factors ins
        <-> tld a ∈ high_risk_tlds s)
    /\ (ip_message ∈ high_risk_factors ins <-> has_ip_address a = true)
    /\ (subdomain_message ∈ moderate_risk_factors ins
        <-> (3 < subdomain_depth a)%nat)
    /\ (keywords_message (found_keywords a) ∈ moderate_risk_factors ins
        <-> found_keywords a <> [])
    /\ (https_message ∈ security_positives ins <-> uses_https a = true)
    /\ (dots_message ∈ security_positives ins <-> excessive_dots a = false)
    /\ low_risk_factors ins = [].
Proof.
  eexists. split; [apply get_security_insights_lists |]. simpl.
  rewrite !elem_of_app, !elem_of_when.
  rewrite !Nat.ltb_lt, bool_decide_eq_true, !negb_true_iff,
    bool_decide_eq_false.
  repeat split; intros; try tauto;
    repeat match goal with
           | H : _ \/ _ |- _ => destruct H
           | H : _ /\ _ |- _ => destruct H
           end;
    try assumption; distinct_messages.
Qed.

(** X10.  No insight is emitted twice, and the lists hold at most four
    high-risk, two moderate-risk and two positive statements. *)
Theorem insights_no_duplicates (a : Analysis) (scores : Py.dict Q)
  (s : Analyzer) :
  exists ins : Insights,
    get_security_insights a scores s = (Some ins, s)
    /\ NoDup (high_risk_factors ins)
    /\ NoDup (moderate_risk_factors ins)
    /\ NoDup (security_positives ins)
    /\ (length (high_risk_factors ins) <= 4)%nat
    /\ (length (moderate_risk_factors ins) <= 2)%nat
    /\ (length (security_positives ins) <= 2)%nat.
Proof.
  eexists. split; [apply get_security_insights_lists |]. simpl.
  destruct (75 <? url_length a)%nat, (10 <? special_chars_count a)%nat,
    (3 <? subdomain_depth a)%nat, (bool_decide (tld a ∈ high_risk_tlds s)),
    (has_ip_address a), (uses_https a), (excessive_dots a),
    (bool_decide (found_keywords a = [])); simpl;
    repeat split; try lia;
    repeat (apply NoDup_cons; split;
            [rewrite ?elem_of_cons, elem_of_nil; intros Hin;
             repeat match goal with
                    | H : _ \/ _ |- _ => destruct H
                    end; try contradiction; distinct_messages |]);
    apply NoDup_nil; exact I.
Qed.

End InsightExtras.

(** ** More on the risk score *)

Module ScoreExtras.

Import URLSecurityAnalyzer RiskScore InsightExtras.
#[local] Open Scope Q_scope.

Lemma of_nat_le (n m : nat) : (n <= m)%nat -> Py.of_nat n <= Py.of_nat m.
Proof. intros H. unfold Py.of_nat, Qle. simpl. lia. Qed.

Lemma of_nat_lt (n m : nat) : (n < m)%nat -> Py.of_nat n < Py.of_nat m.
Proof. intros H. unfold Py.of_nat, Qlt. simpl. lia. Qed.

(** From the threshold on, the clamped ratio is 1. *)
Lemma clamp_saturated (n t : nat) :
  (0 < t)%nat -> (t <= n)%nat ->
  Py.min (Py.of_nat n / Py.of_nat t) 1 == 1.
Proof.
  intros Ht Hn.
  assert (Hpos : 0 < Py.of_nat t) by (apply (of_nat_lt 0); exact Ht).
  assert (H1 : 1 <= Py.of_nat n / Py.of_nat t).
  { apply Qle_shift_div_l; [exact Hpos |]. rewrite Qmult_1_l.
    apply of_nat_le. exact Hn. }
  destruct (min_spec (Py.of_nat n / Py.of_nat t) 1) as [[H ->] | [H ->]].
  - reflexivity.
  - apply Qle_antisym; assumption.
Qed.

(** The clamped ratio grows with the count. *)
Lemma clamp_monotone (n m : nat) (t : Q) :
  0 < t -> (n <= m)%nat ->
  Py.min (Py.of_nat n / t) 1 <= Py.min (Py.of_nat m / t) 1.
Proof.
  intros Ht Hnm.
  assert (H : Py.of_nat n / t <= Py.of_nat m / t).
  { unfold Qdiv. apply Qmult_le_compat_r; [apply of_nat_le; exact Hnm |].
    apply Qlt_le_weak, Qinv_lt_0_compat. exact Ht. }
  destruct (min_spec (Py.of_nat n / t) 1) as [[Hn ->] | [Hn ->]];
    destruct (min_spec (Py.of_nat m / t) 1) as [[Hm ->] | [Hm ->]]; lra.
Qed.

(** X11.  Insights and factor scores agree: with the configuration of
    [__init__], the insight on URL length, on special characters or on
    subdomain levels is only emitted when its factor score is at its
    maximum 1; the insight on the TLD is emitted exactly when the TLD
    factor is 1; and the insight on keywords exactly when the keyword
    factor is positive. *)
Theorem insights_match_scores (a : Analysis) :
  exists (total : Q) (scores : Py.dict Q) (ins : Insights),
    calculate_risk_score a init = (Some (total, scores), init)
    /\ get_security_insights a scores init = (Some ins, init)
    /\ (long_url_message ∈ high_risk_factors ins ->
        exists q, Py.getitem scores "length" = Some q /\ q == 1)
    /\ (special_chars_message ∈ high_risk_factors ins ->
        exists q, Py.getitem scores "special_chars" = Some q /\ q == 1)
    /\ (subdomain_message ∈ moderate_risk_factors ins ->
        exists q, Py.getitem scores "subdomain_depth" = Some q /\ q == 1)
    /\ (exists q, Py.getitem scores "tld_risk" = Some q
                  /\ (tld_message (tld a) ∈ high_risk_factors ins
                      <-> q == 1))
    /\ (exists q, Py.getitem scores "suspicious_keywords" = Some q
                  /\ (keywords_message (found_keywords a)
                        ∈ moderate_risk_factors ins
                      <-> 0 < q)).
Proof.
  exists (total_of a), (scores_of a).
  destruct (insight_rules_lists a (scores_of a) init)
    as (ins & Hins & Hlen & Hsp & Htld & Hsub & Hkw).
  exists ins. split; [apply calculate_risk_score_init |].
  split; [exact Hins |].
  split; [| split; [| split; [| split]]].
  - intros H. apply Hlen in H. eexists. split; [reflexivity |].
    apply (clamp_saturated (url_length a) 75); lia.
  - intros H. apply Hsp in H. eexists. split; [reflexivity |].
    apply (clamp_saturated (special_chars_count a) 10); lia.
  - intros H. apply Hsub in H. eexists. split; [reflexivity |].
    apply (clamp_saturated (subdomain_depth a) 3); lia.
  - eexists. split; [reflexivity |]. rewrite Htld.
    destruct (bool_decide (tld a ∈ high_risk_tlds init)) eqn:E.
    + apply bool_decide_eq_true in E. split; [reflexivity | auto].
    + apply bool_decide_eq_false in E. split; [contradiction | discriminate].
  - eexists. split; [reflexivity |]. rewrite Hkw.
    destruct (found_keywords a) as [| kw kws]; simpl length.
    + split; [congruence |]. intros H. exfalso. revert H.
      vm_compute. discriminate.
    + split; [intros _ | discriminate].
      apply Qlt_le_trans with (1 / 3); [reflexivity |].
      apply (clamp_lower (S (length kws)) 3); [lia | discriminate].
Qed.

(** [a] scores no higher than [b] on every input of the risk score. *)
Definition no_riskier (a b : Analysis) : Prop :=
  (url_length a <= url_length b)%nat
  /\ (special_chars_count a <= special_chars_count b)%nat
  /\ (subdomain_depth a <= subdomain_depth b)%nat
  /\ (path_depth a <= path_depth b)%nat
  /\ (length (found_keywords a) <= length (found_keywords b))%nat
  /\ (tld a ∈ high_risk_tlds init -> tld b ∈ high_risk_tlds init).

(** X12.  The composite score is monotone: an analysis with no larger
    counts and no riskier TLD never gets a larger composite score or a
    larger factor score. *)
Theorem composite_score_monotone (a b : Analysis) :
  no_riskier a b ->
  exists (ta tb : Q) (sa sb : Py.dict Q),
    calculate_risk_score a init = (Some (ta, sa), init)
    /\ calculate_risk_score b init = (Some (tb, sb), init)
    /\ ta <= tb
    /\ Forall2 (fun x y => fst x = fst y /\ snd x <= snd y) sa sb.
Proof.
  intros (Hlen & Hsp & Hsub & Hpath & Hkw & Htld).
  exists (total_of a), (total_of b), (scores_of a), (scores_of b).
  split; [apply calculate_risk_score_init |].
  split; [apply calculate_risk_score_init |].
  pose proof (clamp_monotone _ _ 75 eq_refl Hlen) as H1.
  pose proof (clamp_monotone _ _ 10 eq_refl Hsp) as H2.
  pose proof (clamp_monotone _ _ 3 eq_refl Hsub) as H3.
  pose proof (clamp_monotone _ _ 4 eq_refl Hpath) as H4.
  pose proof (clamp_monotone _ _ 3 eq_refl Hkw) as H5.
  assert (H6 : (if bool_decide (tld a ∈ high_risk_tlds init) then 1 else 0)
               <= (if bool_decide (tld b ∈ high_risk_tlds init)
                   then 1 else 0)).
  { destruct (bool_decide (tld a ∈ high_risk_tlds init)) eqn:Ea;
      destruct (bool_decide (tld b ∈ high_risk_tlds init)) eqn:Eb;
      try discriminate.
    apply bool_decide_eq_true in Ea. apply bool_decide_eq_false in Eb.
    exfalso. auto. }
  split.
  - unfold total_of. lra.
  - unfold scores_of.
    repeat (apply List.Forall2_cons; [split; [reflexivity | assumption] |]).
    apply List.Forall2_nil.
Qed.

(** X13.  The risk score is only shown in red, that is above 0.7, for
    a URL with a suspicious keyword or a high-risk TLD: length, special
    characters, subdomains and path depth together reach 0.6 at most. *)
Theorem red_needs_keyword_or_tld (a : Analysis) :
  exists (total : Q) (scores : Py.dict Q),
    calculate_risk_score a init = (Some (total, scores), init)
    /\ (found_keywords a = [] -> tld a ∉ high_risk_tlds init ->
        total <= 0.6)
    /\ (URLScannerApp.risk_color total = "red" ->
        found_keywords a <> [] \/ tld a ∈ high_risk_tlds init).
Proof.
  exists (total_of a), (scores_of a).
  split; [apply calculate_risk_score_init |].
  assert (Hle : found_keywords a = [] -> tld a ∉ high_risk_tlds init ->
                total_of a <= 0.6).
  { intros Hkw Htld. unfold total_of. rewrite Hkw.
    rewrite (bool_decide_eq_false_2 _ Htld).
    destruct (clamp_bounds (url_length a) 75) as [_ ?]; [reflexivity |].
    destruct (clamp_bounds (special_chars_count a) 10) as [_ ?];
      [reflexivity |].
    destruct (clamp_bounds (subdomain_depth a) 3) as [_ ?]; [reflexivity |].
    destruct (clamp_bounds (path_depth a) 4) as [_ ?]; [reflexivity |].
    assert (Hzero : Py.min (Py.of_nat (length (@nil string)) / 3) 1 == 0)
      by reflexivity.
    rewrite Hzero. lra. }
  split; [exact Hle |].
  intros Hred.
  destruct (found_keywords a) as [| kw kws] eqn:Hkw; [| left; discriminate].
  destruct (decide (tld a ∈ high_risk_tlds init)) as [Hin | Hout];
    [right; exact Hin |].
  exfalso. specialize (Hle eq_refl Hout).
  unfold URLScannerApp.risk_color, Py.gt in Hred.
  assert (Hb : Qle_bool (total_of a) 0.7 = true).
  { apply Qle_bool_iff. lra. }
  rewrite Hb in Hred. simpl in Hred.
  destruct (Qle_bool (total_of a) 0.4); discriminate.
Qed.

(** A longer URL with one more keyword and the TLD [xyz]. *)
Definition riskier_analysis : Analysis := {|
  url_length := 80;
  special_chars_count := 3;
  subdomain_depth := 2;
  path_depth := 1;
  found_keywords := ["login"; "secure"];
  tld := "xyz";
  uses_https := false;
  has_ip_address := false;
  excessive_dots := false;
  numeric_domain := false;
  domain_length := 11;
  path_length := 6;
  query_length := 0
|}.

Lemma composite_score_monotone_witness :
  no_riskier Structure.ip_login_analysis riskier_analysis
  /\ exists (ta tb : Q) (sa sb : Py.dict Q),
       calculate_risk_score Structure.ip_login_analysis init
       = (Some (ta, sa), init)
       /\ calculate_risk_score riskier_analysis init = (Some (tb, sb), init)
       /\ ta <= tb.
Proof.
  assert (H : no_riskier Structure.ip_login_analysis riskier_analysis).
  { unfold no_riskier. simpl. repeat split; lia. }
  split; [exact H |].
  destruct (composite_score_monotone _ _ H)
    as (ta & tb & sa & sb & Ha & Hb & Hle & _).
  exists ta, tb, sa, sb. auto.
Defined.

End ScoreExtras.

(** ** The risk score under any configuration *)

Module ConfigExtras.

Import URLSecurityAnalyzer ReadsOnly.
#[local] Open Scope Q_scope.

(** [self.risk_factors[name][key]], or nothing where a key is missing. *)
Definition entry (s : Analyzer) (name key : string) : option Q :=
  match Py.getitem (risk_factors s) name with
  | Some e => Py.getitem e key
  | None => None
  end.

Lemma factor_entry (name key : string) (s : Analyzer) :
  factor name key s = (entry s name key, s).
Proof.
  unfold factor, entry, mbind, method_bind, bind, self, try_.
  destruct (Py.getitem (risk_factors s) name); reflexivity.
Qed.

Lemma bind_some_inv {S A B : Type} (m : method S A) (k : A -> method S B)
  (s s' : S) (b : B) :
  (m ≫= k) s = (Some b, s') ->
  exists (a : A) (s1 : S), m s = (Some a, s1) /\ k a s1 = (Some b, s').
Proof.
  unfold mbind, method_bind, bind.
  destruct (m s) as [[a |] s1]; [| discriminate].
  intros H. exists a, s1. auto.
Qed.

Lemma threshold_risk_returns (name : string) (value : nat) (s : Analyzer)
  (t : Q) :
  entry s name "threshold" = Some t -> ~ t == 0 ->
  threshold_risk name value s
  = (Some (Py.min (Py.of_nat value / t) 1), s).
Proof.
  intros He Ht. unfold threshold_risk.
  rewrite (bind_returns _ _ _ _ _ (eq_trans (factor_entry _ _ _)
                                      (f_equal (fun o => (o, s)) He))).
  unfold Py.div. destruct (Qeq_bool t 0) eqn:E.
  - apply Qeq_bool_iff in E. contradiction.
  - reflexivity.
Qed.

Lemma threshold_risk_inv (name : string) (value : nat) (s s' : Analyzer)
  (r : Q) :
  threshold_risk name value s = (Some r, s') ->
  s' = s /\ exists t : Q, entry s name "threshold" = Some t /\ ~ t == 0.
Proof.
  unfold threshold_risk. intros H.
  apply bind_some_inv in H as (t & s1 & Hf & H).
  rewrite factor_entry in Hf. injection Hf as Hf <-.
  apply bind_some_inv in H as (q & s2 & Hd & H).
  unfold try_, Py.div in Hd. destruct (Qeq_bool t 0) eqn:E;
    [discriminate |].
  injection Hd as _ <-. injection H as _ <-.
  split; [reflexivity |]. exists t. split; [exact Hf |].
  intros Ht. apply Qeq_bool_iff in Ht. congruence.
Qed.

Lemma factor_weight_returns (name : string) (s : Analyzer) (w : Q) :
  entry s name "weight" = Some w -> factor name "weight" s = (Some w, s).
Proof. intros H. rewrite factor_entry, H. reflexivity. Qed.

Lemma factor_weight_inv (name : string) (s s' : Analyzer) (w : Q) :
  factor name "weight" s = (Some w, s') ->
  s' = s /\ entry s name "weight" = Some w.
Proof.
  rewrite factor_entry. intros H. injection H as H <-. auto.
Qed.

(** The entries [calculate_risk_score] reads. *)
Definition threshold_names : list string :=
  [ "length"; "special_chars"; "subdomain_depth"; "path_depth" ]%string.
Definition factor_names : list string :=
  [ "length"; "special_chars"; "subdomain_depth"; "path_depth";
    "suspicious_keywords"; "tld_risk" ]%string.

Definition config_complete (s : Analyzer) : Prop :=
  Forall (fun name => exists t : Q,
            entry s name "threshold" = Some t /\ ~ t == 0)
         threshold_names
  /\ Forall (fun name => exists w : Q, entry s name "weight" = Some w)
            factor_names.

(** X14.  [calculate_risk_score] returns exactly when the analyzer's
    [risk_factors] holds a non-zero threshold for the four counted
    factors and a weight for all six; with any entry missing, or a
    threshold of zero, it raises.  Either way the analyzer is left as it
    was. *)
Theorem calculate_risk_score_returns_iff (a : Analysis) (s : Analyzer) :
  ((exists r : Q * Py.dict Q, fst (calculate_risk_score a s) = Some r)
   <-> config_complete s)
  /\ snd (calculate_risk_score a s) = s.
Proof.
  split; [| apply Assessment.calculate_risk_score_reads_only].
  split.
  - intros [r Hr].
    destruct (calculate_risk_score a s) as [o s'] eqn:H.
    simpl in Hr. subst o. unfold calculate_risk_score in H.
    repeat match type of H with
           | (threshold_risk _ _ ≫= _) _ = _ =>
               let q := fresh "q" in
               let s1 := fresh "s" in
               let Ht := fresh "Ht" in
               apply bind_some_inv in H as (q & s1 & Ht & H);
               apply threshold_risk_inv in Ht as [-> Ht]
           end.
    apply bind_some_inv in H as (ratio & s1 & Hd & H).
    injection Hd as _ <-.
    apply bind_some_inv in H as (s0 & s1 & Hs & H).
    injection Hs as <- <-.
    cbn [Py.setitem String.eqb Ascii.eqb Bool.eqb] in H.
    apply bind_some_inv in H as (total & s1 & Hw & _).
    cbn [weighted_sum] in Hw.
    repeat match type of Hw with
           | (factor _ _ ≫= _) _ = _ =>
               let w := fresh "w" in
               let s1 := fresh "s" in
               let Hf := fresh "Hw" in
               apply bind_some_inv in Hw as (w & s1 & Hf & Hw);
               apply factor_weight_inv in Hf as [-> Hf]
           end.
    split; repeat (apply List.Forall_cons; [eauto |]); apply List.Forall_nil.
  - intros [Ht Hw].
    unfold threshold_names in Ht. unfold factor_names in Hw.
    repeat match goal with
           | H : Forall _ (_ :: _) |- _ =>
               apply Forall_cons in H as [(? & ? & ?) H]
           | H : Forall _ (_ :: _) |- _ =>
               apply Forall_cons in H as [(? & ?) H]
           end.
    unfold calculate_risk_score.
    repeat (erewrite bind_returns;
            [| apply threshold_risk_returns; eassumption]).
    erewrite bind_returns; [| reflexivity].
    erewrite bind_returns; [| reflexivity].
    cbn [Py.setitem String.eqb Ascii.eqb Bool.eqb weighted_sum].
    erewrite bind_returns.
    + eexists. reflexivity.
    + repeat (erewrite bind_returns;
              [| apply factor_weight_returns; eassumption]).
      reflexivity.
Qed.

End ConfigExtras.

(** ** More on the scan history *)

Module HistoryExtras.

Import URLDatabase.

#[local] Instance newer_total : Total newer.
Proof. intros r1 r2. unfold newer. lia. Qed.

#[local] Instance newer_transitive : Transitive newer.
Proof. intros r1 r2 r3. unfold newer. lia. Qed.






Section WithHash.

Variable md5_hexdigest : string -> string.

Abbreviation add := (add_scan md5_hexdigest).

(** X16.  [add_scan] writes one row and touches no other: the row under
    the digest of the URL is the one just written, every other row is as
    before, and the table grows by one row at most.  A second scan of
    the same URL replaces the first: the table is as if only the second
    had been made. *)
Theorem add_scan_effect (now : Z) (url : string) (prediction : Q)
  (conn : url_scans) :
  let conn' := snd (add now url prediction conn) in
  fst (add now url prediction conn) = Some tt
  /\ conn' !! md5_hexdigest url
     = Some (mkRow url now prediction (Qle_bool 0.5 prediction))
  /\ (forall id : string, id <> md5_hexdigest url -> conn' !! id = conn !! id)
  /\ (size conn <= size conn' <= size conn + 1)%nat
  /\ (forall (now2 : Z) (prediction2 : Q),
        snd (add now2 url prediction2 conn')
        = snd (add now2 url prediction2 conn)).
Proof.
  unfold add_scan, assign. simpl.
  split; [reflexivity |].
  split; [apply lookup_insert_eq |].
  split; [intros id Hid; apply lookup_insert_ne; congruence |].
  split.
  - rewrite map_size_insert.
    destruct (conn !! md5_hexdigest url); simpl; lia.
  - intros now2 prediction2. apply insert_insert_eq.
Qed.


End WithHash.


End HistoryExtras.

(** ** More on the scanner page *)

Module PageExtras.

Import URLScannerApp Page.

Lemma set_same_analyzer (app : App) :
  set_security_analyzer (security_analyzer app) app = app.
Proof. destruct app. reflexivity. Qed.

Section WithLibraries.

Variable urlparse : string -> option ParseResult.
Variable tldextract_extract : string -> ExtractResult.
Variable validators_url : string -> bool.
Variable md5_hexdigest : string -> string.

Abbreviation assess := (URLScannerApp.assess urlparse tldextract_extract).
Abbreviation features := (URLFeatureExtractor.extract_features urlparse).
Abbreviation predict := (predict_url urlparse md5_hexdigest).
Abbreviation page :=
  (show_url_scanner_page urlparse tldextract_extract validators_url
     md5_hexdigest).

(** The row [add_scan] writes for a prediction. *)
Definition scan_row (now : Z) (url : string) (prediction : Q) : Row :=
  mkRow url now prediction (Qle_bool 0.5 prediction).

(** The application after a scan is written to the history. *)
Definition recorded (now : Z) (url : string) (prediction : Q) (app : App)
  : App :=
  set_db (<[ md5_hexdigest url := scan_row now url prediction ]> (db app)) app.

(** Where [urlparse] returns, the analyzer of [__init__] assesses the
    URL without raising, and the composite score is in [0,1]. *)
Lemma assess_returns (url : string) (parsed : ParseResult) :
  urlparse url = Some parsed ->
  exists r : RiskAssessment,
    assess url URLSecurityAnalyzer.init = (Some r, URLSecurityAnalyzer.init)
    /\ (0 <= composite_score r <= 1)%Q.
Proof.
  intros Hp.
  destruct (Assessment.analyze_url_structure_returns urlparse
              tldextract_extract url URLSecurityAnalyzer.init parsed Hp)
    as [a Ha].
  destruct (Assessment.get_security_insights_returns a
              (RiskScore.scores_of a) URLSecurityAnalyzer.init)
    as (ins & Hins & _).
  exists {| composite_score := RiskScore.total_of a;
            factor_scores := RiskScore.scores_of a;
            insights := ins |}.
  split; [| apply RiskScore.total_of_bounds].
  unfold URLScannerApp.assess.
  rewrite (ReadsOnly.bind_returns _ _ _ _ _ Ha).
  rewrite (ReadsOnly.bind_returns _ _ _ _ _
             (RiskScore.calculate_risk_score_init a)).
  rewrite (ReadsOnly.bind_returns _ _ _ _ _ Hins). reflexivity.
Qed.

Lemma features_parsed (url : string) (f : list (list Z)) :
  features url = Some f -> exists parsed, urlparse url = Some parsed.
Proof.
  unfold URLFeatureExtractor.extract_features.
  destruct (urlparse url) as [parsed |]; [eauto | discriminate].
Qed.

(** What a scan request does, case by case. *)
Inductive outcome (now : Z) (url : string) (app : App) : App -> Prop :=
| invalid :
    model app = None \/ validators_url url = false ->
    outcome now url app (shown (st_error "Please enter a valid URL") app)
| failed (the_model : classifier) :
    model app = Some the_model ->
    validators_url url = true ->
    features url = None
    \/ (exists f, features url = Some f /\ the_model f = None) ->
    outcome now url app
      (shown (st_error_exception "Error predicting URL: ") app)
| analysed (the_model : classifier) (f : list (list Z)) (prediction : Q)
    (r : RiskAssessment) :
    model app = Some the_model ->
    validators_url url = true ->
    features url = Some f ->
    the_model f = Some prediction ->
    assess url URLSecurityAnalyzer.init = (Some r, URLSecurityAnalyzer.init) ->
    (0 <= composite_score r <= 1)%Q ->
    outcome now url app
      (shown (security_analysis url prediction r)
             (recorded now url prediction app)).

Lemma predict_url_returns (now : Z) (url : string) (app : App)
  (the_model : classifier) (f : list (list Z)) (prediction : Q) :
  model app = Some the_model ->
  features url = Some f ->
  the_model f = Some prediction ->
  predict now url app
  = (Some (Some (prediction, f)), recorded now url prediction app).
Proof.
  intros Hm Hf Hp. unfold predict_url.
  rewrite (ReadsOnly.bind_returns self _ app app app eq_refl).
  rewrite Hm. unfold try_except.
  unfold mbind, method_bind, bind, try_, on, URLDatabase.add_scan, assign.
  rewrite Hf, Hp. reflexivity.
Qed.

Lemma predict_url_fails (now : Z) (url : string) (app : App)
  (the_model : classifier) :
  model app = Some the_model ->
  features url = None
  \/ (exists f, features url = Some f /\ the_model f = None) ->
  predict now url app
  = (Some None, shown (st_error_exception "Error predicting URL: ") app).
Proof.
  intros Hm Hbad. unfold predict_url.
  rewrite (ReadsOnly.bind_returns self _ app app app eq_refl).
  rewrite Hm. unfold try_except.
  unfold mbind, method_bind, bind, try_.
  destruct Hbad as [-> | (f & -> & ->)]; reflexivity.
Qed.

Lemma display_security_analysis_returns (url : string) (prediction : Q)
  (app : App) (r : RiskAssessment) :
  security_analyzer app = URLSecurityAnalyzer.init ->
  assess url URLSecurityAnalyzer.init = (Some r, URLSecurityAnalyzer.init) ->
  display_security_analysis urlparse tldextract_extract url prediction app
  = (Some tt, shown (security_analysis url prediction r) app).
Proof.
  intros Hinit Hr. unfold display_security_analysis.
  assert (Hon : on security_analyzer set_security_analyzer (assess url) app
                = (Some r, app)).
  { unfold on. rewrite Hinit, Hr. rewrite <- Hinit at 1.
    rewrite set_same_analyzer. reflexivity. }
  rewrite (ReadsOnly.bind_returns _ _ _ _ _ Hon). reflexivity.
Qed.

Lemma page_cases (now : Z) (url : string) (app : App) :
  security_analyzer app = URLSecurityAnalyzer.init ->
  exists app' : App,
    page now url app = (Some tt, app') /\ outcome now url app app'.
Proof.
  intros Hinit. unfold show_url_scanner_page.
  rewrite (ReadsOnly.bind_returns self _ app app app eq_refl).
  destruct (model app) as [the_model |] eqn:Em; cbn [Py.is_not_none andb];
    [| eexists; split; [reflexivity | apply invalid; auto]].
  destruct (validators_url url) eqn:Ev;
    [| eexists; split; [reflexivity | apply invalid; auto]].
  destruct (features url) as [f |] eqn:Ef.
  - destruct (the_model f) as [prediction |] eqn:Epred.
    + destruct (features_parsed _ _ Ef) as [parsed Hp].
      destruct (assess_returns url parsed Hp) as (r & Hr & Hbound).
      exists (shown (security_analysis url prediction r)
                (recorded now url prediction app)).
      split; [| eapply analysed; eauto].
      rewrite (ReadsOnly.bind_returns _ _ _ _ _
                 (predict_url_returns now url app _ _ _ Em Ef Epred)).
      apply display_security_analysis_returns; [exact Hinit | exact Hr].
    + eexists. split; [| eapply failed; eauto].
      rewrite (ReadsOnly.bind_returns _ _ _ _ _
                 (predict_url_fails now url app _ Em
                    (or_intror (ex_intro _ f (conj Ef Epred))))).
      reflexivity.
  - eexists. split; [| eapply failed; eauto].
    rewrite (ReadsOnly.bind_returns _ _ _ _ _
               (predict_url_fails now url app _ Em (or_introl Ef))).
    reflexivity.
Qed.

(** X18.  With the analyzer of [__init__], a scan request never raises,
    whatever the URL, the model and the libraries do.  It puts exactly
    one item on the screen and leaves model and analyzer as they are; if
    the item is an error message the history is untouched, and if it is
    a security analysis the history has received the row of this URL
    with the prediction shown. *)
Theorem page_shows_one_item (now : Z) (url : string) (app : App) :
  security_analyzer app = URLSecurityAnalyzer.init ->
  exists (app' : App) (item : rendered),
    page now url app = (Some tt, app')
    /\ screen app' = (screen app ++ [item])%list
    /\ model app' = model app
    /\ security_analyzer app' = security_analyzer app
    /\ match item with
       | security_analysis shown_url prediction r =>
           shown_url = url
           /\ db app'
              = <[ md5_hexdigest url := scan_row now url prediction ]> (db app)
       | _ => db app' = db app
       end.
Proof.
  intros Hinit.
  destruct (page_cases now url app Hinit) as (app' & Hpage & Hout).
  exists app'. destruct Hout; eexists; (split; [exact Hpage |]);
    repeat split.
Qed.

(** X19.  A security analysis is shown exactly when the model is loaded,
    the URL passes [validators.url], [urlparse] accepts it and the model
    returns a prediction for its feature vector.  The analysis shown
    then carries that prediction and the assessment of the URL, whose
    composite score is in [0,1]. *)
Theorem page_analysis_shown (now : Z) (url : string) (app : App) :
  security_analyzer app = URLSecurityAnalyzer.init ->
  exists app' : App,
    page now url app = (Some tt, app')
    /\ ((exists item, screen app' = (screen app ++ [item])%list
                      /\ is_security_analysis item = true)
        <-> (validators_url url = true
             /\ exists the_model f prediction,
                  model app = Some the_model
                  /\ features url = Some f
                  /\ the_model f = Some prediction))
    /\ (forall shown_url prediction r,
          screen app'
          = (screen app ++ [security_analysis shown_url prediction r])%list ->
          shown_url = url
          /\ (exists the_model f,
                model app = Some the_model /\ features url = Some f
                /\ the_model f = Some prediction)
          /\ assess url URLSecurityAnalyzer.init
             = (Some r, URLSecurityAnalyzer.init)
          /\ (0 <= composite_score r <= 1)%Q).
Proof.
  intros Hinit.
  destruct (page_cases now url app Hinit) as (app' & Hpage & Hout).
  exists app'. split; [exact Hpage |].
  destruct Hout as [Hbad | m Hm Hv Hbad | m f p r Hm Hv Hf Hp Hr Hb];
    simpl; unfold Py.append.
  - split; [split |].
    + intros (item & E & Hitem). apply app_inv_head in E.
      injection E as <-. discriminate.
    + intros (Hv & m & f & p & Hm & _). destruct Hbad; congruence.
    + intros u p r E. apply app_inv_head in E. discriminate.
  - split; [split |].
    + intros (item & E & Hitem). apply app_inv_head in E.
      injection E as <-. discriminate.
    + intros (_ & m' & f & p & Hm' & Hf & Hp).
      rewrite Hm in Hm'. injection Hm' as <-.
      destruct Hbad as [Hnone | (f' & Hf' & Hnone)]; congruence.
    + intros u p r E. apply app_inv_head in E. discriminate.
  - split; [split |].
    + intros _. split; [exact Hv |]. exists m, f, p. auto.
    + intros _. eexists. split; reflexivity.
    + intros u p' r' E. apply app_inv_head in E.
      injection E as <- <- <-. split; [reflexivity |].
      split; [exists m, f; auto |]. auto.
Qed.

End WithLibraries.

(** X20.  History and page disagree at exactly 0.5: the row that
    [add_scan] writes has [is_malicious] true for every prediction of
    0.5 or more, while the page shows the prediction in red only above
    0.5.  For every other prediction the two agree. *)
Theorem pred_color_is_malicious (md5_hexdigest : string -> string)
  (now : Z) (url : string) (prediction : Q) (conn : url_scans) :
  exists row : Row,
    snd (URLDatabase.add_scan md5_hexdigest now url prediction conn)
      !! md5_hexdigest url = Some row
    /\ row_prediction row = prediction
    /\ (row_is_malicious row = true
        <-> pred_color prediction = "red" \/ (prediction == 0.5)%Q)
    /\ ((prediction == 0.5)%Q ->
        row_is_malicious row = true /\ pred_color prediction = "green").
Proof.
  eexists. split; [apply lookup_insert_eq |]. simpl.
  split; [reflexivity |].
  unfold pred_color, Py.gt.
  destruct (Qle_bool 0.5 prediction) eqn:Ege;
    destruct (Qle_bool prediction 0.5) eqn:Ele; simpl.
  - apply Qle_bool_iff in Ege, Ele.
    assert (Heq : (prediction == 0.5)%Q) by (apply Qle_antisym; assumption).
    repeat split; auto.
  - split; [split; auto |].
    intros Heq. rewrite Heq in Ele. discriminate.
  - split; [split; [discriminate |] |].
    + intros [H | Heq]; [discriminate |].
      rewrite Heq in Ege. discriminate.
    + intros Heq. rewrite Heq in Ege. discriminate.
  - exfalso.
    assert (Hn1 : ~ (0.5 <= prediction)%Q).
    { intros H. apply Qle_bool_iff in H. congruence. }
    assert (Hn2 : ~ (prediction <= 0.5)%Q).
    { intros H. apply Qle_bool_iff in H. congruence. }
    apply Qnot_le_lt in Hn1. apply Hn2. apply Qlt_le_weak. exact Hn1.
Qed.

Lemma page_shows_one_item_witness :
  exists (app' : App) (item : rendered),
    show_url_scanner_page Recorded.urlparse Recorded.tldextract_extract
      Recorded.validators_url Recorded.md5_hexdigest
      0 "https://www.google.com" failing_app = (Some tt, app')
    /\ screen app' = [item].
Proof.
  destruct (page_shows_one_item Recorded.urlparse Recorded.tldextract_extract
              Recorded.validators_url Recorded.md5_hexdigest
              0 "https://www.google.com" failing_app eq_refl)
    as (app' & item & Hpage & Hscreen & _).
  exists app', item. split; [exact Hpage | exact Hscreen].
Defined.

(** An application whose model answers 0.9 to every feature vector. *)
Definition working_app : App :=
  {| db := ∅; model := Some (fun _ => Some 0.9%Q);
     security_analyzer := URLSecurityAnalyzer.init; screen := [] |}.

Lemma page_analysis_shown_witness :
  exists app' : App,
    show_url_scanner_page Recorded.urlparse Recorded.tldextract_extract
      Recorded.validators_url Recorded.md5_hexdigest
      0 "http://192.168.1.1/login" working_app = (Some tt, app')
    /\ exists item, screen app' = [item] /\ is_security_analysis item = true.
Proof.
  destruct (page_analysis_shown Recorded.urlparse Recorded.tldextract_extract
              Recorded.validators_url Recorded.md5_hexdigest
              0 "http://192.168.1.1/login" working_app eq_refl)
    as (app' & Hpage & Hiff & _).
  exists app'. split; [exact Hpage |].
  apply Hiff. split; [reflexivity |].
  eexists _, _, _. repeat split; reflexivity.
Defined.

End PageExtras.

(** ** The digit patterns of the structural analysis *)

Module DigitPatterns.

Import Re URLSecurityAnalyzer.
#[local] Open Scope list_scope.





Section WithLibraries.

Variable urlparse : string -> option ParseResult.
Variable tldextract_extract : string -> ExtractResult.


(** X22.  Feature vector and structural analysis of one URL agree where
    they measure the same thing: the second feature is [path_length],
    and the fourth feature, the dot count, is above 3 exactly when
    [excessive_dots] holds. *)
Theorem features_agree_with_analysis (url : string) (s s' : Analyzer)
  (a : Analysis) :
  analyze_url_structure urlparse tldextract_extract url s = (Some a, s') ->
  exists host fd dots flag : Z,
    URLFeatureExtractor.extract_features urlparse url
    = Some [[ host; Z.of_nat (path_length a); fd; dots; flag ]]
    /\ (excessive_dots a = true <-> (3 < dots)%Z)
    /\ (dots <= Z.of_nat (url_length a))%Z.
Proof.
  intros Ha.
  apply StructureExtras.analyze_url_structure_fields in Ha
    as (parsed & Hp & _ & ->).
  unfold URLFeatureExtractor.extract_features. rewrite Hp. simpl.
  eexists _, _, _, _. split; [reflexivity |].
  split; [rewrite Nat.ltb_lt; lia |].
  pose proof (PyStrFacts.count_le_length "." url). lia.
Qed.

End WithLibraries.


Lemma features_agree_with_analysis_witness :
  exists host fd dots flag : Z,
    URLFeatureExtractor.extract_features Recorded.urlparse
      Structure.ip_login_url
    = Some [[ host; 6%Z; fd; dots; flag ]]
    /\ (excessive_dots Structure.ip_login_analysis = true <-> (3 < dots)%Z).
Proof.
  destruct (features_agree_with_analysis Recorded.urlparse
              Recorded.tldextract_extract Structure.ip_login_url
              init init Structure.ip_login_analysis
              Structure.ip_login_analysis_eq)
    as (host & fd & dots & flag & Hf & Hd & _).
  exists host, fd, dots, flag. split; [exact Hf | exact Hd].
Defined.

End DigitPatterns.
